(** * AISIP-MBDA: the training pipeline of [ai4sipmbda/training.py]

    A shallow embedding of the label encoder ([preprocess_label]), the
    augmented estimator ([AugmentedClassifier]), the split evaluator
    ([do_split]) and the classification driver ([do_classif]), together
    with the hand-off path of [ai4sipmbda/pre_project_data.py].

    Python exceptions are values of [exn]; effectful code runs in the
    state-and-exception monad [M] over a [World] that holds standard
    output, the warning log, the directories and files, and the state
    of the objects the code calls into (the estimators, numpy's global
    generator). *)

From Stdlib Require Import ZArith Ascii.
From stdpp Require Import base option list strings gmap fin_maps pretty.

Open Scope string_scope.
Open Scope Z_scope.
Open Scope list_scope.

(** ** Exceptions and results *)

Inductive exn : Type :=
| KeyError (key : string)
| TypeError (msg : string)
| ValueError (msg : string)
| IndexError (msg : string)
| FileNotFoundError (path : string)
| OtherError (msg : string).

Inductive result (A : Type) : Type :=
| Ok (a : A)
| Raise (e : exn).
Arguments Ok {A} a.
Arguments Raise {A} e.

Definition is_KeyError (e : exn) : bool :=
  match e with KeyError _ => true | _ => false end.

(** [s.endswith(suffix)] *)
Fixpoint endswith (s suffix : string) : bool :=
  String.eqb s suffix
  || match s with
     | EmptyString => false
     | String _ s' => endswith s' suffix
     end.

(** ** pandas and numpy primitives used by the source *)

Module Pandas.

(** [Series.unique()]: the distinct values in order of appearance. *)
Fixpoint unique_acc `{EqDecision A} (seen l : list A) : list A :=
  match l with
  | [] => []
  | x :: l' =>
      if bool_decide (x ∈ seen) then unique_acc seen l'
      else x :: unique_acc (x :: seen) l'
  end.

Definition unique `{EqDecision A} (l : list A) : list A := unique_acc [] l.

(** [Series.isin(values)]: the boolean mask of membership. *)
Definition isin `{EqDecision A} (col values : list A) : list bool :=
  (λ x, bool_decide (x ∈ values)) <$> col.

(** [df[mask]] with a boolean Series computed from [df] itself. *)
Fixpoint boolean_index {A} (mask : list bool) (l : list A) : list A :=
  match mask, l with
  | b :: mask', x :: l' =>
      if b then x :: boolean_index mask' l' else boolean_index mask' l'
  | _, _ => []
  end.

(** [Series.apply(f)]: [f] on every value in row order; the first
    exception raised by [f] aborts the call. *)
Fixpoint apply {A B} (f : A → result B) (l : list A) : result (list B) :=
  match l with
  | [] => Ok []
  | x :: l' =>
      match f x with
      | Raise e => Raise e
      | Ok y =>
          match apply f l' with
          | Raise e => Raise e
          | Ok ys => Ok (y :: ys)
          end
      end
  end.

End Pandas.

Module Numpy.

(** [a[mask]] with a boolean array: the mask must be as long as the
    indexed axis. *)
Definition boolean_index {A} (mask : list bool) (a : list A)
  : result (list A) :=
  if bool_decide (length mask = length a)
  then Ok (Pandas.boolean_index mask a)
  else Raise (IndexError "boolean index did not match indexed array").

(** [a[idx]] with an integer index array. *)
Fixpoint take_indices {A} (a : list A) (idx : list nat) : result (list A) :=
  match idx with
  | [] => Ok []
  | i :: idx' =>
      match a !! i with
      | None => Raise (IndexError "index out of bounds")
      | Some x =>
          match take_indices a idx' with
          | Raise e => Raise e
          | Ok xs => Ok (x :: xs)
          end
      end
  end.

(** The name [np.save(file, arr)] writes to: [.npy] is appended to a
    name that does not end with it. *)
Definition npy_name (file : string) : string :=
  if endswith file ".npy" then file else file +:+ ".npy".

End Numpy.

(** ** pathlib's POSIX paths *)

Module Pathlib.

(** [s.split("/")] *)
Fixpoint split (s : string) : list string :=
  match s with
  | EmptyString => [EmptyString]
  | String c s' =>
      if Ascii.eqb c "/"%char then EmptyString :: split s'
      else match split s' with
           | [] => [String c EmptyString]
           | x :: xs => String c x :: xs
           end
  end.

(** ["/".join(l)] *)
Fixpoint join (l : list string) : string :=
  match l with
  | [] => ""
  | x :: l' =>
      match l' with
      | [] => x
      | _ :: _ => x +:+ "/" +:+ join l'
      end
  end.

(** A parsed path: the root (empty, [/] or [//]) and the components. *)
Record Path : Type := { root : string; parts : list string }.

(** [posixpath.splitroot]: one leading slash or three and more make the
    root [/], exactly two make it [//]. *)
Definition splitroot (p : string) : string * string :=
  match p with
  | String c1 p1 =>
      if Ascii.eqb c1 "/"%char then
        match p1 with
        | String c2 p2 =>
            if Ascii.eqb c2 "/"%char then
              match p2 with
              | String c3 _ =>
                  if Ascii.eqb c3 "/"%char then ("/", p1) else ("//", p2)
              | EmptyString => ("//", p2)
              end
            else ("/", p1)
        | EmptyString => ("/", p1)
        end
      else ("", p)
  | EmptyString => ("", p)
  end.

(** [Path(s)]: the components that are empty or [.] are dropped. *)
Definition parse (s : string) : Path :=
  let '(r, rel) := splitroot s in
  {| root := r; parts := filter (λ x, x ≠ "" ∧ x ≠ ".") (split rel) |}.

(** [str(p)], which is also what an f-string and [os.fspath] make of
    a path. *)
Definition str (p : Path) : string :=
  match root p +:+ join (parts p) with
  | "" => "."
  | s => s
  end.

(** [p / key]: an absolute [key] replaces [p]. *)
Definition truediv (p : Path) (key : string) : Path :=
  let k := parse key in
  match root k with
  | "" => {| root := root p; parts := parts p ++ parts k |}
  | _ => k
  end.

(** [p.parent] *)
Definition parent (p : Path) : Path :=
  match parts p with
  | [] => p
  | _ :: _ => {| root := root p; parts := removelast (parts p) |}
  end.

End Pathlib.

(** ** Python built-ins *)

(** [enumerate(l)], counting from [k]. *)
Fixpoint enumerate_from {A} (k : Z) (l : list A) : list (Z * A) :=
  match l with
  | [] => []
  | x :: l' => (k, x) :: enumerate_from (k + 1) l'
  end.

Definition enumerate {A} (l : list A) : list (Z * A) := enumerate_from 0 l.

(** [{v: k for k, v in kvs}]: keys inserted in order, a later one wins. *)
Definition dict_of_enumerated (kvs : list (Z * string)) : gmap string Z :=
  fold_left (λ d kv, <[kv.2 := kv.1]> d) kvs ∅.

(** [d[x]] *)
Definition dict_getitem (d : gmap string Z) (x : string) : result Z :=
  match d !! x with
  | Some k => Ok k
  | None => Raise (KeyError x)
  end.

(** ** The label table *)

Record row : Type := { contrast : string; subject : Z }.

(** What [preprocess_label] returns: the code array alone, or the pair
    of the code array and the dictionary when [return_dict] is set. *)
Definition encoded (return_dict : bool) : Type :=
  if return_dict then (list Z * gmap string Z)%type else list Z.

(** The decoding side of the round trip, which the source leaves to its
    callers: the inverse mapping [{v: k for k, v in d.items()}] and the
    lookup of every code in it. *)
Definition inverse_dict (d : gmap string Z) : gmap Z string :=
  list_to_map (prod_swap <$> map_to_list d).

Definition decode (inv : gmap Z string) (codes : list Z)
  : option (list string) :=
  mapM (λ c, inv !! c) codes.

(** ** The operating system *)

(** The requests the code makes that the operating system can refuse. *)
Inductive os_op : Type :=
| Mkdir (path : string)
| OpenWrite (path : string).

Section Pipeline.

Set Default Proof Using "Type".

(** numpy's float64 (matrix entries and scores are never inspected). *)
Variable float : Type.
(** The state of the objects the pipeline only calls into: the
    estimators, the augmentation function, the collaborators of the
    pre-projection script. *)
Variable E : Type.
(** The byte string [pickle] produces. *)
Variable pickled : Type.

Definition matrix : Type := list (list float).

(** The Python values handed to and returned by estimators. *)
Inductive value : Type :=
| VPaths (paths : list string)
| VCodes (codes : list Z)
| VMatrix (rows : matrix)
| VFloat (x : float)
| VObj (id : nat)
| VNone.

(** One tuple of [scores]. *)
Record score_row : Type :=
  { row_method_name : string; row_algo : string;
    row_score : value; row_split : Z }.

(** The content of a regular file: [Truncated] is a file just opened
    for writing, [Partial p] what [pickle.dump] had written (possibly
    nothing) when it raised. *)
Inductive file : Type :=
| Truncated
| Partial (p : pickled)
| NpyFile (a : matrix)
| PklFile (p : pickled)
| CsvFile (columns : list string) (rows : list score_row).

(** [dirs] are the paths that name a directory, [fs] the regular files
    by path, [writes] the completed writes in order. Paths are compared
    as strings. *)
Record World : Type :=
  { stdout : list string;
    warnings : list string;
    dirs : gset string;
    fs : gmap string file;
    writes : list (string * file);
    next_id : nat;
    ext : E }.

(** The verdict of the operating system on a request, given the
    directories there are: [None] when it goes through, or the
    [OSError] raised (a missing parent directory, a permission). *)
Variable os_error : os_op → gset string → option exn.

(** *** The monad of effectful code *)

Definition M (A : Type) : Type := World → result A * World.

#[local] Instance M_ret : MRet M := λ A a w, (Ok a, w).
#[local] Instance M_bind : MBind M := λ A B k c w,
  match c w with
  | (Ok a, w') => k a w'
  | (Raise e, w') => (Raise e, w')
  end.

Definition raise {A} (e : exn) : M A := λ w, (Raise e, w).

Definition lift {A} (r : result A) : M A := λ w, (r, w).

(** A call into an external object. *)
Definition call {A} (c : E → result A * E) : M A := λ w,
  let '(r, e') := c (ext w) in
  (r, {| stdout := stdout w; warnings := warnings w; dirs := dirs w;
         fs := fs w; writes := writes w; next_id := next_id w;
         ext := e' |}).

Definition print (s : string) : M unit := λ w,
  (Ok (), {| stdout := stdout w ++ [s]; warnings := warnings w;
             dirs := dirs w; fs := fs w; writes := writes w;
             next_id := next_id w; ext := ext w |}).

(** [logging.warning] *)
Definition warning (s : string) : M unit := λ w,
  (Ok (), {| stdout := stdout w; warnings := warnings w ++ [s];
             dirs := dirs w; fs := fs w; writes := writes w;
             next_id := next_id w; ext := ext w |}).

(** [Path.mkdir(exist_ok=True)] on the path whose string is [path]:
    [os.mkdir] refuses a path that exists, which [exist_ok] forgives
    when the path is a directory and not when it is a file; without
    [parents=True] every other refusal (a missing parent first of all)
    is raised. *)
Definition mkdir (path : string) : M unit := λ w,
  if decide (path ∈ dirs w) then (Ok (), w)
  else if decide (is_Some (fs w !! path))
  then (Raise (OtherError "FileExistsError"), w)
  else
    match os_error (Mkdir path) (dirs w) with
    | Some e => (Raise e, w)
    | None =>
        (Ok (), {| stdout := stdout w; warnings := warnings w;
                   dirs := {[path]} ∪ dirs w; fs := fs w;
                   writes := writes w; next_id := next_id w;
                   ext := ext w |})
    end.

(** [open(path, "wb")]: a directory cannot be opened for writing and
    the operating system can refuse; otherwise the file is created or
    emptied. *)
Definition open_wb (path : string) : M unit := λ w,
  if decide (path ∈ dirs w) then (Raise (OtherError "IsADirectoryError"), w)
  else
    match os_error (OpenWrite path) (dirs w) with
    | Some e => (Raise e, w)
    | None =>
        (Ok (), {| stdout := stdout w; warnings := warnings w;
                   dirs := dirs w; fs := <[path := Truncated]> (fs w);
                   writes := writes w; next_id := next_id w;
                   ext := ext w |})
    end.

(** A completed write of [content] to the file opened at [path]. *)
Definition write_file (path : string) (content : file) : M unit := λ w,
  (Ok (), {| stdout := stdout w; warnings := warnings w; dirs := dirs w;
             fs := <[path := content]> (fs w);
             writes := writes w ++ [(path, content)];
             next_id := next_id w; ext := ext w |}).

(** [DataFrame.to_csv(path)]: the file is opened, then written. *)
Definition to_csv (columns : list string) (rows : list score_row)
    (path : string) : M unit :=
  open_wb path;;
  write_file path (CsvFile columns rows).

(** [np.load(path)] *)
Definition np_load (path : string) : M matrix := λ w,
  match fs w !! path with
  | Some (NpyFile a) => (Ok a, w)
  | Some _ => (Raise (ValueError "cannot load file as an array"), w)
  | None =>
      if decide (path ∈ dirs w)
      then (Raise (OtherError "IsADirectoryError"), w)
      else (Raise (FileNotFoundError path), w)
  end.

(** [np.save(file, a)] *)
Definition np_save (file : string) (a : matrix) : M unit :=
  open_wb (Numpy.npy_name file);;
  write_file (Numpy.npy_name file) (NpyFile a).

(** A fresh object identity. *)
Definition new_id : M nat := λ w,
  (Ok (next_id w),
   {| stdout := stdout w; warnings := warnings w; dirs := dirs w;
      fs := fs w; writes := writes w; next_id := S (next_id w);
      ext := ext w |}).

(** [try: body except KeyError: handler] *)
Definition try_except_KeyError {A} (body handler : M A) : M A := λ w,
  match body w with
  | (Raise e, w') => if is_KeyError e then handler w' else (Raise e, w')
  | r => r
  end.

(** A list comprehension, or a [for] loop that collects: the body runs
    on the elements in order and the first exception ends it. *)
Fixpoint for_each {A B} (body : A → M B) (l : list A) : M (list B) :=
  match l with
  | [] => mret []
  | x :: l' => y ← body x; ys ← for_each body l'; mret (y :: ys)
  end.

(** *** [preprocess_label] *)

Definition preprocess_label (Y_t : list row)
    (use_dict : option (gmap string Z)) (return_dict : bool)
  : M (encoded return_dict) :=
  Y_dict ← match use_dict with
           | None =>
               print "     >>> creating Y_dict";;
               mret (dict_of_enumerated
                       (enumerate (Pandas.unique (contrast <$> Y_t))))
           | Some d => mret d
           end;
  print "     >>> Applying Y_dict";;
  match return_dict return M (encoded return_dict) with
  | true =>
      codes ← lift (Pandas.apply (dict_getitem Y_dict) (contrast <$> Y_t));
      mret (codes, Y_dict)
  | false =>
      lift (Pandas.apply (dict_getitem Y_dict) (contrast <$> Y_t))
  end.

(** *** [AugmentedClassifier] *)

(** An object with the methods [fit], [predict] and [score]; a method
    receives its positional arguments as a list. *)
Record estimator : Type :=
  { est_id : nat;
    est_fit : list value → E → result value * E;
    est_predict : list value → E → result value * E;
    est_score : list value → E → result value * E }.

Definition augmentation : Type :=
  value → value → E → result (value * value) * E.

Record AugmentedClassifier : Type :=
  { self_id : nat; model : estimator; f : option augmentation }.

(** Python's complaint about a call that does not match the signature. *)
Definition arity_error {A} (name : string) : E → result A * E :=
  λ e, (Raise (TypeError (name +:+ "() got the wrong number of positional arguments")), e).

Definition fit (self : AugmentedClassifier) (args : list value)
  : E → result value * E :=
  match args with
  | [X; Y] =>
      match f self with
      | None => est_fit (model self) [X; Y]
      | Some g => λ e,
          match g X Y e with
          | (Ok (X_fake, Y_fake), e') =>
              est_fit (model self) [X_fake; Y_fake] e'
          | (Raise ex, e') => (Raise ex, e')
          end
      end
  | _ => arity_error "fit"
  end.

Definition predict (self : AugmentedClassifier) (args : list value)
  : E → result value * E :=
  match args with
  | [X; y] => est_predict (model self) [X; y]
  | _ => arity_error "predict"
  end.

Definition score (self : AugmentedClassifier) (args : list value)
  : E → result value * E :=
  match args with
  | [X; y] => est_score (model self) [X; y]
  | _ => arity_error "score"
  end.

(** [pickle.dumps] of a classifier in the current state of the objects
    it refers to and, for a classifier it raises on, the bytes
    [pickle.dump] has handed to the file by then. *)
Variable pickle_dumps : AugmentedClassifier → E → result pickled.
Variable pickle_partial : AugmentedClassifier → E → pickled.

(** [pickle.dump(clf, file)] into the file opened at [path]: an
    exception leaves the file with what was written before it. *)
Definition pickle_dump (clf : AugmentedClassifier) (path : string)
  : M unit := λ w,
  match pickle_dumps clf (ext w) with
  | Ok p => write_file path (PklFile p) w
  | Raise e =>
      (Raise e,
       {| stdout := stdout w; warnings := warnings w; dirs := dirs w;
          fs := <[path := Partial (pickle_partial clf (ext w))]> (fs w);
          writes := writes w; next_id := next_id w; ext := ext w |})
  end.

(** *** sklearn's [ShuffleSplit] *)

(** numpy's [RandomState]: seeding, and [permutation(n)], which returns
    a shuffled [range(n)] and advances the generator. *)
Variable rng : Type.
Variable RandomState : Z → rng.
Variable permutation : rng → nat → list nat * rng.

(** [permutation(n)] of numpy's global generator, which every caller
    of [np.random] shares: its state is part of the external state. *)
Variable global_permutation : nat → E → list nat * E.

(** The type of [train_size] (a float or an int), and sklearn's
    validation of it against the number of samples, which returns
    [(n_train, n_test)] or raises. *)
Variable size_spec : Type.
Variable validate_shuffle_split : nat → size_spec → result (nat * nat).

(** [random_state] is [None] or an integer seed. *)
Record ShuffleSplit : Type :=
  { n_splits : Z; train_size : size_spec; random_state : option Z }.

(** The generator a splitter draws from. *)
Inductive generator : Type :=
| Global
| Private (r : rng).

(** [check_random_state]: [None] is numpy's global generator, an
    integer seeds a generator of its own. *)
Definition check_random_state (seed : option Z) : generator :=
  match seed with
  | None => Global
  | Some seed => Private (RandomState seed)
  end.

(** [rng.permutation(n)] *)
Definition rng_permutation (g : generator) (n : nat)
  : M (list nat * generator) :=
  match g with
  | Global =>
      perm ← call (λ e, let '(perm, e') := global_permutation n e in
                        (Ok perm, e'));
      mret (perm, Global)
  | Private r =>
      let '(perm, r') := permutation r n in mret (perm, Private r')
  end.

(** The loop of [_iter_indices] under the list comprehension that
    consumes it: the generator draws the permutation of a split when
    the comprehension asks for it, then [body] runs on the split, [k]
    times. *)
Fixpoint iter_indices_for {B} (body : Z → list nat * list nat → M B)
    (g : generator) (k : nat) (i : Z) (n_samples n_train n_test : nat)
  : M (list B) :=
  match k with
  | O => mret []
  | S k' =>
      '(perm, g') ← rng_permutation g n_samples;
      y ← body i (take n_train (drop n_test perm), take n_test perm);
      ys ← iter_indices_for body g' k' (i + 1) n_samples n_train n_test;
      mret (y :: ys)
  end.

(** [[body(i, split) for i, split in enumerate(sf.split(range(n_samples)))]] *)
Definition ShuffleSplit_split_for {B} (sf : ShuffleSplit) (n_samples : nat)
    (body : Z → list nat * list nat → M B) : M (list B) :=
  '(n_train, n_test) ←
    lift (validate_shuffle_split n_samples (train_size sf));
  iter_indices_for body (check_random_state (random_state sf))
    (Z.to_nat (n_splits sf)) 0 n_samples n_train n_test.

(** *** The splits of a seeded splitter *)

(** What a generator of its own yields: one permutation per split,
    drawn from [r]. *)
Fixpoint iter_indices (r : rng) (splits n_samples n_train n_test : nat)
  : list (list nat * list nat) :=
  match splits with
  | O => []
  | S k =>
      let '(perm, r') := permutation r n_samples in
      (take n_train (drop n_test perm), take n_test perm)
        :: iter_indices r' k n_samples n_train n_test
  end.

(** [list(sf.split(range(n_samples)))] for a splitter with the integer
    [random_state] [seed]. *)
Definition seeded_splits (seed n_splits : Z) (train_size : size_spec)
    (n_samples : nat) : result (list (list nat * list nat)) :=
  match validate_shuffle_split n_samples train_size with
  | Raise e => Raise e
  | Ok (n_train, n_test) =>
      Ok (iter_indices (RandomState seed) (Z.to_nat n_splits) n_samples
            n_train n_test)
  end.

(** *** [do_split] *)

(** Lines 149 to 152: the subjects of the split, then the row masks. *)
Definition split_masks (split : list nat * list nat) (Y : list row)
    (subjects : list Z) : result (list bool * list bool) :=
  let '(train, test) := split in
  match Numpy.take_indices subjects train with
  | Raise e => Raise e
  | Ok train =>
      match Numpy.take_indices subjects test with
      | Raise e => Raise e
      | Ok test =>
          Ok (Pandas.isin (subject <$> Y) train,
              Pandas.isin (subject <$> Y) test)
      end
  end.

(** Lines 160 to 170: slice the inputs, fit, checkpoint, score. *)
Definition fit_checkpoint_score (train test : list bool)
    (Y_train Y_test : list Z) (data_paths : list string)
    (projected_X : matrix) (f : option augmentation) (model : estimator)
    (checkpoint_name : string) : M value :=
  X_train ← lift (Numpy.boolean_index train data_paths);
  print " >> Loading test projected images";;
  X_test ← lift (Numpy.boolean_index test projected_X);
  id ← new_id;
  let clf := {| self_id := id; model := model; f := f |} in
  print " >> starting fit";;
  call (fit clf [VPaths X_train; VCodes Y_train]);;
  open_wb checkpoint_name;;
  pickle_dump clf checkpoint_name;;
  print " >> starting score";;
  score_split ← call (score clf [VMatrix X_test; VCodes Y_test]);
  mret score_split.

Definition do_split (split : list nat * list nat) (data_paths : list string)
    (projected_X : matrix) (Y : list row) (f : option augmentation)
    (model : estimator) (subjects : list Z) (n_jobs : Z)
    (checkpoint_base_name : string) (i_split : Z) : M value :=
  let checkpoint_name :=
    checkpoint_base_name +:+ "_" +:+ pretty i_split +:+ ".pkl" in
  '(train, test) ← lift (split_masks split Y subjects);
  print " >> preprocessing labels";;
  '(Y_train, labels_dict) ←
    preprocess_label (Pandas.boolean_index train Y) None true;
  Y_test ←
    try_except_KeyError
      (preprocess_label (Pandas.boolean_index test Y) (Some labels_dict) false)
      (warning "NOT PASSING TRAIN LABELS DICTIONARY TO TEST SET";;
       preprocess_label (Pandas.boolean_index test Y) None false);
  fit_checkpoint_score train test Y_train Y_test data_paths projected_X
    f model checkpoint_name.

(** *** [do_classif] *)

(** The two estimators of the catalog, as constructed at lines 123 to 126. *)
Variable LinearDiscriminantAnalysis : estimator.
Variable RandomForestClassifier : estimator.

Definition models : list (estimator * string) :=
  [(LinearDiscriminantAnalysis, "LDA"); (RandomForestClassifier, "RF")].

(** The path [do_classif] loads the projected data from. *)
Definition projected_X_path : string :=
  "../hcp900_difumo_matrics/difumo_data.npy".

Definition score_columns : list string :=
  ["method_name"; "algo"; "score"; "split"].

(** The subject splits of a run, as a list: those of a splitter seeded
    with 0 on the distinct subjects of the label table. *)
Definition subject_splits (labels : list row) (train_size : size_spec)
    (n_splits : Z) : result (list (list nat * list nat)) :=
  seeded_splits 0 n_splits train_size
    (length (Pandas.unique (subject <$> labels))).

(** The body of the loop over [models] (lines 177 to 198): the rows one
    model adds to [scores]. [checkpoint_base_name] reaches the f-string
    of [do_split] as a path, which formats it with [str]. *)
Definition classif_model (images_path : list string) (projected_X : matrix)
    (labels : list row) (f : option augmentation) (method_name : string)
    (models_dir : Pathlib.Path) (train_size : size_spec) (n_splits n_jobs : Z)
    (entry : estimator * string) : M (list score_row) :=
  let '(model, name) := entry in
  let subjects := Pandas.unique (subject <$> labels) in
  let sf := {| n_splits := n_splits; train_size := train_size;
               random_state := Some 0 |} in
  let model_fname := Pathlib.truediv models_dir name in
  scores_split ←
    ShuffleSplit_split_for sf (length subjects)
      (λ i_split split,
         do_split split images_path projected_X labels f model subjects
           n_jobs (Pathlib.str model_fname) i_split);
  mret ((λ '(i_split, score_split),
           {| row_method_name := method_name; row_algo := name;
              row_score := score_split; row_split := i_split |})
          <$> enumerate scores_split).

Definition do_classif (images_path : list string) (Z_inv mask : matrix)
    (labels : list row) (f : option augmentation) (method_name : string)
    (output_fname models_dir : string) (train_size : size_spec)
    (n_splits n_jobs : Z) : M unit :=
  let models_dir := Pathlib.parse models_dir in
  mkdir (Pathlib.str models_dir);;
  projected_X ← np_load projected_X_path;
  scores ←
    for_each
      (classif_model images_path projected_X labels f method_name
         models_dir train_size n_splits n_jobs)
      models;
  to_csv score_columns (concat scores) output_fname.

(** *** The pre-projection script *)

Record arguments : Type :=
  { max_images : option Z; njobs : Z; data_dir : string; verbose : Z;
    output_path : string }.

(** The defaults of the command line parser. *)
Definition default_arguments : arguments :=
  {| max_images := None; njobs := 1; data_dir := "/storage/store2/data/";
     verbose := 0;
     output_path := "../hcp900_difumo_matrices/difumo_data.npy" |}.

Section PreProjection.

(** The collaborators: [fetching.fetch_nv] (its ["images"] column) and
    [project_to_difumo] on the images opened by torchio. *)
Variable fetch_nv : string → option Z → Z → E → result (list string) * E.
Variable project_to_difumo :
  list string → matrix → matrix → Z → E → result matrix * E.

Definition pre_project_main (args : arguments) : M unit :=
  print " --- LOADING DATA --- ";;
  images ← call (fetch_nv (data_dir args) (max_images args) (verbose args));
  let output_path := Pathlib.parse (output_path args) in
  mkdir (Pathlib.str (Pathlib.parent output_path));;
  print " --- LOADING/CREATING DIFUMO PROJECTORS --- ";;
  Z_inv ← np_load "../hcp900_difumo_matrices/Zinv.npy";
  mask ← np_load "../hcp900_difumo_matrices/mask.npy";
  print " --- PROJECTING --- ";;
  X_test ← call (project_to_difumo images Z_inv mask (njobs args));
  print " --- SAVING --- ";;
  np_save (Pathlib.str output_path) X_test.

End PreProjection.

(** ** Facts about the primitives *)

Lemma unique_acc_elem `{EqDecision A} (l seen : list A) (x : A) :
  x ∈ Pandas.unique_acc seen l ↔ x ∈ l ∧ x ∉ seen.
Proof.
  revert seen; induction l as [|a l IH]; intros seen; simpl.
  - split; [intros H; inversion H | intros [H _]; inversion H].
  - case_bool_decide as Ha.
    + rewrite IH, elem_of_cons. split; [tauto|].
      intros [[->|Hx] Hn]; [contradiction | tauto].
    + rewrite !elem_of_cons, IH, elem_of_cons. split.
      * intros [->|[Hx Hn]]; [tauto|]. split; [tauto|]. tauto.
      * intros [[->|Hx] Hn]; [tauto|].
        destruct (decide (x = a)) as [->|Hne]; [tauto|]. right. tauto.
Qed.

Lemma unique_acc_NoDup `{EqDecision A} (l seen : list A) :
  NoDup (Pandas.unique_acc seen l).
Proof.
  revert seen; induction l as [|a l IH]; intros seen; simpl.
  - constructor.
  - case_bool_decide; [apply IH|].
    constructor; [|apply IH].
    rewrite unique_acc_elem, elem_of_cons. tauto.
Qed.

Lemma unique_acc_ext `{EqDecision A} (l s1 s2 : list A) :
  (∀ x, x ∈ s1 ↔ x ∈ s2) →
  Pandas.unique_acc s1 l = Pandas.unique_acc s2 l.
Proof.
  revert s1 s2; induction l as [|a l IH]; intros s1 s2 Hs; simpl; [done|].
  rewrite (bool_decide_ext _ _ (Hs a)).
  case_bool_decide; [by apply IH|].
  f_equal. apply IH. intros x. rewrite !elem_of_cons, Hs. tauto.
Qed.

Lemma unique_acc_app `{EqDecision A} (l1 l2 seen : list A) :
  Pandas.unique_acc seen (l1 ++ l2)%list
  = (Pandas.unique_acc seen l1 ++ Pandas.unique_acc (l1 ++ seen) l2)%list.
Proof.
  revert seen; induction l1 as [|a l1 IH]; intros seen; simpl; [done|].
  case_bool_decide as Ha.
  - rewrite IH. f_equal. apply unique_acc_ext.
    intros x. rewrite elem_of_cons, !elem_of_app.
    split; [tauto|]. intros [->|H]; tauto.
  - rewrite IH. simpl. do 2 f_equal. apply unique_acc_ext.
    intros x. rewrite elem_of_cons, !elem_of_app, elem_of_cons. tauto.
Qed.

(** Scanning left to right, a value that was not seen before is put at
    the end of the distinct values seen so far. *)
Lemma unique_first_occurrence `{EqDecision A} (l1 l2 : list A) (x : A) :
  x ∉ l1 →
  Pandas.unique (l1 ++ x :: l2)%list !! length (Pandas.unique l1) = Some x.
Proof.
  intros Hx. unfold Pandas.unique. rewrite unique_acc_app. simpl.
  rewrite bool_decide_eq_false_2 by (rewrite elem_of_app; intros [H|H];
    [done | inversion H]).
  by rewrite list_lookup_middle.
Qed.

Lemma enumerated_fold_notin (l : list string) (k : Z) (d : gmap string Z)
    (x : string) :
  x ∉ l →
  fold_left (λ d kv, <[kv.2 := kv.1]> d) (enumerate_from k l) d !! x = d !! x.
Proof.
  revert k d; induction l as [|a l IH]; intros k d Hx; simpl; [done|].
  apply not_elem_of_cons in Hx as [Hne Hx].
  rewrite IH by done. by rewrite lookup_insert_ne.
Qed.

Lemma enumerated_fold_lookup (l : list string) (k : Z) (d : gmap string Z)
    (i : nat) (x : string) :
  NoDup l → l !! i = Some x →
  fold_left (λ d kv, <[kv.2 := kv.1]> d) (enumerate_from k l) d !! x
  = Some (k + Z.of_nat i).
Proof.
  revert k d i; induction l as [|a l IH]; intros k d i Hnd Hi; [done|].
  apply NoDup_cons in Hnd as [Ha Hnd]. destruct i as [|i]; simpl in *.
  - injection Hi as ->. rewrite enumerated_fold_notin by done.
    rewrite lookup_insert_eq. f_equal. lia.
  - rewrite (IH _ _ i) by done. f_equal. lia.
Qed.

(** The dictionary built from a column: the code of a value is its
    position among the distinct values. *)
Lemma built_dict_lookup (l : list string) (x : string) (k : Z) :
  dict_of_enumerated (enumerate (Pandas.unique l)) !! x = Some k
  ↔ 0 ≤ k ∧ Pandas.unique l !! Z.to_nat k = Some x.
Proof.
  unfold dict_of_enumerated, enumerate. split.
  - intros H. destruct (decide (x ∈ Pandas.unique l)) as [Hin|Hnin].
    + apply list_elem_of_lookup in Hin as [i Hi].
      rewrite (enumerated_fold_lookup _ _ _ i) in H
        by (done || apply unique_acc_NoDup).
      injection H as <-. rewrite Z.add_0_l, Nat2Z.id. split; [lia|done].
    + rewrite enumerated_fold_notin in H by done. by rewrite lookup_empty in H.
  - intros [Hk Hi].
    rewrite (enumerated_fold_lookup _ _ _ (Z.to_nat k))
      by (done || apply unique_acc_NoDup).
    f_equal. lia.
Qed.

Lemma built_dict_is_Some (l : list string) (x : string) :
  is_Some (dict_of_enumerated (enumerate (Pandas.unique l)) !! x) ↔ x ∈ l.
Proof.
  split.
  - intros [k Hk]. apply built_dict_lookup in Hk as [_ Hk].
    apply list_elem_of_lookup_2 in Hk.
    apply unique_acc_elem in Hk. by destruct Hk.
  - intros Hx.
    assert (x ∈ Pandas.unique l) as Hin
      by (apply unique_acc_elem; split; [done | intros H; inversion H]).
    apply list_elem_of_lookup in Hin as [i Hi].
    exists (Z.of_nat i). apply built_dict_lookup.
    rewrite Nat2Z.id. split; [lia|done].
Qed.

Lemma built_dict_inj (l : list string) (x y : string) (k : Z) :
  dict_of_enumerated (enumerate (Pandas.unique l)) !! x = Some k →
  dict_of_enumerated (enumerate (Pandas.unique l)) !! y = Some k →
  x = y.
Proof.
  rewrite !built_dict_lookup. intros [_ Hx] [_ Hy]. congruence.
Qed.

(** [Series.apply] of a dictionary lookup succeeds exactly with the
    codes of the values, in row order. *)
Lemma apply_getitem_Ok (d : gmap string Z) (l : list string) (cs : list Z) :
  Pandas.apply (dict_getitem d) l = Ok cs
  ↔ Forall2 (λ x c, d !! x = Some c) l cs.
Proof.
  revert cs; induction l as [|x l IH]; intros cs; simpl.
  - split; [intros [= <-]; constructor | by intros ->%Forall2_nil_inv_l].
  - unfold dict_getitem at 1. destruct (d !! x) as [c|] eqn:Hx.
    + destruct (Pandas.apply (dict_getitem d) l) as [ys|e] eqn:Hl.
      * split.
        -- intros [= <-]. constructor; [done|]. by apply IH.
        -- intros (c' & cs' & Hc & Hcs & ->)%Forall2_cons_inv_l.
           apply IH in Hcs. congruence.
      * split; [done|].
        intros (c' & cs' & Hc & Hcs & ->)%Forall2_cons_inv_l.
        apply IH in Hcs. done.
    + split; [done|].
      intros (c' & cs' & Hc & Hcs & ->)%Forall2_cons_inv_l. congruence.
Qed.

Lemma apply_getitem_total (d : gmap string Z) (l : list string) :
  (∀ x, x ∈ l → is_Some (d !! x)) →
  ∃ cs, Pandas.apply (dict_getitem d) l = Ok cs.
Proof.
  induction l as [|x l IH]; intros H; simpl; [by eexists|].
  destruct (H x) as [c Hc]; [by left|].
  destruct IH as [cs Hcs]; [intros y Hy; apply H; by right|].
  unfold dict_getitem at 1. rewrite Hc, Hcs. by eexists.
Qed.

(** A value missing from the dictionary makes [Series.apply] raise the
    [KeyError] of the first such value. *)
Lemma apply_getitem_KeyError (d : gmap string Z) (l : list string)
    (x : string) :
  x ∈ l → d !! x = None →
  ∃ y, y ∈ l ∧ d !! y = None
       ∧ Pandas.apply (dict_getitem d) l = Raise (KeyError y).
Proof.
  induction l as [|a l IH]; intros Hin Hx; [inversion Hin|]. simpl.
  unfold dict_getitem at 1. destruct (d !! a) as [c|] eqn:Ha.
  - apply elem_of_cons in Hin as [->|Hin]; [congruence|].
    destruct (IH Hin Hx) as (y & Hy & Hdy & ->).
    exists y. split; [by right|done].
  - exists a. split; [by left|done].
Qed.

Lemma inverse_dict_lookup (d : gmap string Z) (x : string) (k : Z) :
  (∀ y z c, d !! y = Some c → d !! z = Some c → y = z) →
  d !! x = Some k → inverse_dict d !! k = Some x.
Proof.
  intros Hinj Hx. unfold inverse_dict.
  apply elem_of_list_to_map_1.
  - rewrite <- list_fmap_compose.
    apply NoDup_fmap_2_strong; [|apply NoDup_map_to_list].
    intros [y c] [z c'] Hy Hz. simpl. intros <-.
    apply elem_of_map_to_list in Hy, Hz. f_equal. by eapply Hinj.
  - apply list_elem_of_fmap. exists (x, k). split; [done|].
    by apply elem_of_map_to_list.
Qed.

(** ** The monad *)

Lemma bind_Ok {A B} (c : M A) (k : A → M B) (w w' : World) (a : A) :
  c w = (Ok a, w') → (c ≫= k) w = k a w'.
Proof. intros H. unfold mbind, M_bind. by rewrite H. Qed.

Lemma bind_Raise {A B} (c : M A) (k : A → M B) (w w' : World) (e : exn) :
  c w = (Raise e, w') → (c ≫= k) w = (Raise e, w').
Proof. intros H. unfold mbind, M_bind. by rewrite H. Qed.

(** [except KeyError] lets every other exception through. *)
Lemma try_except_other {A} (body handler : M A) (w w' : World) (e : exn) :
  is_KeyError e = false → body w = (Raise e, w') →
  try_except_KeyError body handler w = (Raise e, w').
Proof. intros He H. unfold try_except_KeyError. by rewrite H, He. Qed.

Lemma try_except_caught {A} (body handler : M A) (w w' : World) (x : string) :
  body w = (Raise (KeyError x), w') →
  try_except_KeyError body handler w = handler w'.
Proof. intros H. unfold try_except_KeyError. by rewrite H. Qed.

Lemma try_except_Ok {A} (body handler : M A) (w w' : World) (a : A) :
  body w = (Ok a, w') → try_except_KeyError body handler w = (Ok a, w').
Proof. intros H. unfold try_except_KeyError. by rewrite H. Qed.

Lemma bind_inv {A B} (c : M A) (k : A → M B) (w w' : World)
    (r : result B) :
  (c ≫= k) w = (r, w') →
  (∃ e, c w = (Raise e, w') ∧ r = Raise e)
  ∨ (∃ a w1, c w = (Ok a, w1) ∧ k a w1 = (r, w')).
Proof.
  unfold mbind, M_bind. destruct (c w) as [[a|e] w1].
  - intros H. right. by exists a, w1.
  - intros [= <- <-]. left. by exists e.
Qed.

Lemma print_inv (s : string) (w w1 : World) (r : result ()) :
  print s w = (r, w1) →
  r = Ok () ∧ ext w1 = ext w ∧ fs w1 = fs w ∧ writes w1 = writes w
  ∧ dirs w1 = dirs w.
Proof. by intros [= <- <-]. Qed.

Lemma call_inv {A} (c : E → result A * E) (w w1 : World) (r : result A) :
  call c w = (r, w1) →
  c (ext w) = (r, ext w1) ∧ fs w1 = fs w ∧ writes w1 = writes w
  ∧ dirs w1 = dirs w.
Proof.
  unfold call. destruct (c (ext w)) as [r0 e']. by intros [= <- <-].
Qed.

Lemma np_load_inv (path : string) (w w1 : World) (r : result matrix) :
  np_load path w = (r, w1) →
  w1 = w ∧ ∀ a, r = Ok a → fs w !! path = Some (NpyFile a).
Proof.
  unfold np_load. destruct (fs w !! path) as [[]|]; [..|destruct decide];
    intros [= <- <-]; (split; [done|]); by intros ? [= <-].
Qed.

(** [mkdir] touches the directories only. *)
Lemma mkdir_inv (path : string) (w w1 : World) (r : result ()) :
  mkdir path w = (r, w1) →
  ext w1 = ext w ∧ fs w1 = fs w ∧ writes w1 = writes w
  ∧ (r = Ok () → path ∈ dirs w1 ∧ dirs w ⊆ dirs w1).
Proof.
  unfold mkdir. destruct decide as [Hin|]; [by intros [= <- <-]|].
  destruct decide; [by intros [= <- <-]|].
  destruct os_error; intros [= <- <-]; [done|]. simpl.
  do 3 (split; [done|]). intros _. set_solver.
Qed.

(** [open] creates or empties the file, or raises and changes nothing. *)
Lemma open_wb_inv (path : string) (w w1 : World) (r : result ()) :
  open_wb path w = (r, w1) →
  ext w1 = ext w ∧ dirs w1 = dirs w ∧ writes w1 = writes w
  ∧ ((r = Ok () ∧ fs w1 = <[path := Truncated]> (fs w))
     ∨ (∃ e, r = Raise e ∧ w1 = w)).
Proof.
  unfold open_wb. destruct decide; [intros [= <- <-]; eauto 10|].
  destruct os_error; intros [= <- <-]; simpl; eauto 10.
Qed.

(** An opened file followed by a completed write of [content]. *)
Lemma open_write_inv (path : string) (content : file) (w w1 : World)
    (r : result ()) :
  (open_wb path ≫= λ _, write_file path content) w = (r, w1) →
  ext w1 = ext w ∧ dirs w1 = dirs w
  ∧ ((r = Ok () ∧ fs w1 = <[path := content]> (fs w)
      ∧ writes w1 = writes w ++ [(path, content)])
     ∨ (∃ e, r = Raise e ∧ w1 = w)).
Proof.
  intros [(e & H & ->)|([] & w2 & H & Hw)]%bind_inv;
    apply open_wb_inv in H as (He & Hd & Hwr & [[? Hf]|(e' & ? & ->)]);
    try discriminate.
  - eauto 10.
  - injection Hw as <- <-. simpl. split; [done|]. split; [done|]. left.
    by rewrite Hf, Hwr, insert_insert_eq.
Qed.

(** ** The label encoder *)

(** The world after the two progress messages of a dictionary build. *)
Definition after_build (w : World) : World :=
  (print "     >>> Applying Y_dict" (print "     >>> creating Y_dict" w).2).2.

Definition after_reuse (w : World) : World :=
  (print "     >>> Applying Y_dict" w).2.

Lemma preprocess_label_build (Y : list row) (b : bool) (w : World) :
  preprocess_label Y None b w
  = match Pandas.apply
            (dict_getitem (dict_of_enumerated
               (enumerate (Pandas.unique (contrast <$> Y)))))
            (contrast <$> Y) with
    | Ok cs =>
        (Ok (match b return encoded b with
             | true => (cs, dict_of_enumerated
                              (enumerate (Pandas.unique (contrast <$> Y))))
             | false => cs
             end), after_build w)
    | Raise e => (Raise e, after_build w)
    end.
Proof.
  unfold preprocess_label, after_build.
  destruct b; unfold mbind, M_bind, mret, M_ret, lift; cbn;
    by destruct (Pandas.apply _ _).
Qed.

Lemma preprocess_label_reuse (Y : list row) (d : gmap string Z) (w : World) :
  preprocess_label Y (Some d) false w
  = (Pandas.apply (dict_getitem d) (contrast <$> Y), after_reuse w).
Proof. reflexivity. Qed.

(** Building a dictionary from a table and applying it to the same
    table never fails. *)
Lemma built_dict_applies (l : list string) :
  ∃ cs, Pandas.apply
          (dict_getitem (dict_of_enumerated (enumerate (Pandas.unique l)))) l
        = Ok cs.
Proof. apply apply_getitem_total. intros x. apply built_dict_is_Some. Qed.

(** C5: without a dictionary, [preprocess_label] returns the codes and
    a dictionary whose keys are the contrast values of the table; the
    code of a value is the number of distinct values before its first
    occurrence, so the codes are the consecutive integers from 0 in
    first-occurrence order; the output has one code per row, the code of
    that row's contrast; and the column A, B, A, C gives the dictionary
    A:0, B:1, C:2 and the codes 0, 1, 0, 2. *)
Theorem preprocess_label_first_occurrence_codes (Y : list row) (w : World) :
  ∃ codes D,
    preprocess_label Y None true w = (Ok (codes, D), after_build w)
    ∧ (∀ x, is_Some (D !! x) ↔ x ∈ contrast <$> Y)
    ∧ (∀ l1 x l2, contrast <$> Y = l1 ++ x :: l2 → x ∉ l1 →
         D !! x = Some (Z.of_nat (length (Pandas.unique l1))))
    ∧ (∀ k, (∃ x, D !! x = Some k)
            ↔ 0 ≤ k < Z.of_nat (length (Pandas.unique (contrast <$> Y))))
    ∧ length codes = length Y
    ∧ (∀ i r, Y !! i = Some r → D !! contrast r = codes !! i)
    ∧ (contrast <$> Y = ["A"; "B"; "A"; "C"] →
         D = {[ "A" := 0; "B" := 1; "C" := 2 ]} ∧ codes = [0; 1; 0; 2]).
Proof.
  destruct (built_dict_applies (contrast <$> Y)) as [cs Hcs].
  exists cs, (dict_of_enumerated (enumerate (Pandas.unique (contrast <$> Y)))).
  rewrite preprocess_label_build, Hcs.
  pose proof Hcs as HF. apply apply_getitem_Ok in HF.
  split; [done|]. split; [apply built_dict_is_Some|].
  split; [|split; [|split; [|split]]].
  - intros l1 x l2 Heq Hx. apply built_dict_lookup.
    rewrite Nat2Z.id, Heq. split; [lia|]. by apply unique_first_occurrence.
  - intros k. split.
    + intros [x [Hk Hx]%built_dict_lookup]. apply lookup_lt_Some in Hx. lia.
    + intros Hk.
      destruct (lookup_lt_is_Some_2 (Pandas.unique (contrast <$> Y))
                  (Z.to_nat k)) as [x Hx]; [lia|].
      exists x. apply built_dict_lookup. split; [lia|done].
  - apply Forall2_length in HF. by rewrite length_fmap in HF.
  - intros i r Hi.
    assert ((contrast <$> Y) !! i = Some (contrast r)) as Hc
      by (by rewrite list_lookup_fmap, Hi).
    destruct (Forall2_lookup_l _ _ _ _ _ HF Hc) as (c & Hci & Hd).
    by rewrite Hd, Hci.
  - intros Heq. rewrite Heq in Hcs |- *. split.
    + apply map_eq. intros x. vm_compute. reflexivity.
    + vm_compute in Hcs. by injection Hcs as <-.
Qed.

(** C8: the dictionary built from a table is injective on the table's
    contrast values, and decoding the codes through the inverse
    dictionary gives back the contrast column, row by row. *)
Theorem preprocess_label_roundtrip (Y : list row) (w : World) :
  ∃ codes D,
    preprocess_label Y None true w = (Ok (codes, D), after_build w)
    ∧ (∀ x y, x ∈ contrast <$> Y → y ∈ contrast <$> Y →
         D !! x = D !! y → x = y)
    ∧ decode (inverse_dict D) codes = Some (contrast <$> Y).
Proof.
  destruct (built_dict_applies (contrast <$> Y)) as [cs Hcs].
  exists cs, (dict_of_enumerated (enumerate (Pandas.unique (contrast <$> Y)))).
  rewrite preprocess_label_build, Hcs. split; [done|].
  apply apply_getitem_Ok in Hcs. split.
  - intros x y [k Hx]%built_dict_is_Some _ Heq.
    rewrite Hx in Heq. symmetry in Heq. by eapply built_dict_inj.
  - unfold decode. apply mapM_Some. apply Forall2_flip.
    eapply Forall2_impl; [exact Hcs|]. simpl. intros x c Hx.
    apply inverse_dict_lookup; [|done].
    intros y z c'. apply built_dict_inj.
Qed.

(** ** The row masks of a split *)

Lemma isin_lookup `{EqDecision A} (col values : list A) (i : nat) :
  Pandas.isin col values !! i = Some true
  ↔ ∃ x, col !! i = Some x ∧ x ∈ values.
Proof.
  unfold Pandas.isin. rewrite list_lookup_fmap.
  destruct (col !! i) as [x|]; simpl.
  - split.
    + intros [= H]. apply bool_decide_eq_true in H. by exists x.
    + intros (y & [= <-] & Hy). f_equal. by apply bool_decide_eq_true.
  - split; [done | by intros (y & ? & _)].
Qed.

Lemma isin_length `{EqDecision A} (col values : list A) :
  length (Pandas.isin col values) = length col.
Proof. unfold Pandas.isin. by rewrite length_fmap. Qed.

(** C7: when the train and test subjects of a split are disjoint, the
    row masks of [do_split] have one entry per row, no row is in both,
    a row is in one of them exactly when its subject is a train or a
    test subject, and two rows of one subject never fall on different
    sides. *)
Theorem split_masks_disjoint_cover (Y : list row) (subjects : list Z)
    (split : list nat * list nat) (train test : list Z) :
  Numpy.take_indices subjects split.1 = Ok train →
  Numpy.take_indices subjects split.2 = Ok test →
  (∀ s, s ∈ train → s ∈ test → False) →
  ∃ mtrain mtest,
    split_masks split Y subjects = Ok (mtrain, mtest)
    ∧ length mtrain = length Y ∧ length mtest = length Y
    ∧ (∀ i, mtrain !! i = Some true → mtest !! i = Some true → False)
    ∧ (∀ i r, Y !! i = Some r →
         (mtrain !! i = Some true ∨ mtest !! i = Some true)
         ↔ (subject r ∈ train ∨ subject r ∈ test))
    ∧ (∀ i j r r', Y !! i = Some r → Y !! j = Some r' →
         subject r = subject r' →
         mtrain !! i = Some true → mtest !! j = Some true → False).
Proof.
  intros Htrain Htest Hdisj. destruct split as [itrain itest]; simpl in *.
  exists (Pandas.isin (subject <$> Y) train),
         (Pandas.isin (subject <$> Y) test).
  unfold split_masks. rewrite Htrain, Htest.
  split; [done|]. rewrite !isin_length, !length_fmap.
  split; [done|]. split; [done|]. split; [|split].
  - intros i (x & Hx & Hin)%isin_lookup (y & Hy & Hin')%isin_lookup.
    rewrite Hx in Hy. injection Hy as <-. by eapply Hdisj.
  - intros i r Hi. rewrite !isin_lookup, list_lookup_fmap, Hi. simpl.
    split.
    + intros [(x & [= <-] & H)|(x & [= <-] & H)]; [by left | by right].
    + intros [H|H]; [left | right]; by exists (subject r).
  - intros i j r r' Hi Hj Heq (x & Hx & Hin)%isin_lookup
      (y & Hy & Hin')%isin_lookup.
    rewrite list_lookup_fmap, Hi in Hx. rewrite list_lookup_fmap, Hj in Hy.
    simpl in *. injection Hx as <-. injection Hy as <-.
    rewrite Heq in Hin. by eapply Hdisj.
Qed.

(** ** The label fallback of [do_split] *)

Definition fallback_warning : string :=
  "NOT PASSING TRAIN LABELS DICTIONARY TO TEST SET".

(** The world once the training labels are encoded. *)
Definition after_train_labels (w : World) : World :=
  after_build (print " >> preprocessing labels" w).2.

(** The world once the test labels are encoded by the fallback. *)
Definition after_fallback (w : World) : World :=
  after_build (warning fallback_warning (after_reuse (after_train_labels w))).2.

(** C4: when a test row carries a contrast that no training row has,
    applying the training dictionary raises [KeyError] for the first
    such label; [do_split] catches it, logs one warning, encodes the
    test labels with a dictionary built from the test rows and goes on
    to fit, checkpoint and score; an exception of that later phase is
    the exception of [do_split], and the handler lets every exception
    other than [KeyError] through. *)
Theorem do_split_unseen_label_fallback (split : list nat * list nat)
    (data_paths : list string) (projected_X : matrix) (Y : list row)
    (f : option augmentation) (model : estimator) (subjects : list Z)
    (n_jobs : Z) (checkpoint_base_name : string) (i_split : Z)
    (train test : list bool) (x : string) (w : World) :
  split_masks split Y subjects = Ok (train, test) →
  x ∈ contrast <$> Pandas.boolean_index test Y →
  x ∉ contrast <$> Pandas.boolean_index train Y →
  ∃ Y_train labels_dict y Y_test,
    preprocess_label (Pandas.boolean_index train Y) None true
      (print " >> preprocessing labels" w).2
    = (Ok (Y_train, labels_dict), after_train_labels w)
    ∧ y ∈ contrast <$> Pandas.boolean_index test Y
    ∧ labels_dict !! y = None
    ∧ preprocess_label (Pandas.boolean_index test Y) (Some labels_dict) false
        (after_train_labels w)
      = (Raise (KeyError y), after_reuse (after_train_labels w))
    ∧ preprocess_label (Pandas.boolean_index test Y) None false
        (warning fallback_warning (after_reuse (after_train_labels w))).2
      = (Ok Y_test, after_fallback w)
    ∧ warnings (after_fallback w) = warnings w ++ [fallback_warning]
    ∧ do_split split data_paths projected_X Y f model subjects n_jobs
        checkpoint_base_name i_split w
      = fit_checkpoint_score train test Y_train Y_test data_paths
          projected_X f model
          (checkpoint_base_name +:+ "_" +:+ pretty i_split +:+ ".pkl")
          (after_fallback w)
    ∧ (∀ e w',
         fit_checkpoint_score train test Y_train Y_test data_paths
           projected_X f model
           (checkpoint_base_name +:+ "_" +:+ pretty i_split +:+ ".pkl")
           (after_fallback w) = (Raise e, w') →
         do_split split data_paths projected_X Y f model subjects n_jobs
           checkpoint_base_name i_split w = (Raise e, w'))
    ∧ (∀ (body handler : M (list Z)) e wa wb,
         is_KeyError e = false → body wa = (Raise e, wb) →
         try_except_KeyError body handler wa = (Raise e, wb)).
Proof.
  intros Hmasks Hx Hnx.
  set (Ytr := Pandas.boolean_index train Y) in *.
  set (Yte := Pandas.boolean_index test Y) in *.
  set (D := dict_of_enumerated (enumerate (Pandas.unique (contrast <$> Ytr)))).
  destruct (built_dict_applies (contrast <$> Ytr)) as [cs Hcs].
  destruct (built_dict_applies (contrast <$> Yte)) as [cs' Hcs'].
  assert (D !! x = None) as HDx.
  { apply eq_None_not_Some. intros H. by apply built_dict_is_Some in H. }
  destruct (apply_getitem_KeyError D _ x Hx HDx) as (y & Hy & HDy & Hraise).
  assert (preprocess_label Ytr None true (print " >> preprocessing labels" w).2
          = (Ok (cs, D), after_train_labels w)) as Htr.
  { rewrite preprocess_label_build. by rewrite Hcs. }
  assert (preprocess_label Yte (Some D) false (after_train_labels w)
          = (Raise (KeyError y), after_reuse (after_train_labels w))) as Hte.
  { rewrite preprocess_label_reuse. by rewrite Hraise. }
  assert (preprocess_label Yte None false
            (warning fallback_warning (after_reuse (after_train_labels w))).2
          = (Ok cs', after_fallback w)) as Hfb.
  { rewrite preprocess_label_build. by rewrite Hcs'. }
  assert (do_split split data_paths projected_X Y f model subjects n_jobs
            checkpoint_base_name i_split w
          = fit_checkpoint_score train test cs cs' data_paths projected_X
              f model
              (checkpoint_base_name +:+ "_" +:+ pretty i_split +:+ ".pkl")
              (after_fallback w)) as Hrun.
  { unfold do_split.
    erewrite bind_Ok; [|unfold lift; by rewrite Hmasks].
    cbv beta iota. erewrite bind_Ok; [|reflexivity].
    erewrite bind_Ok; [|exact Htr].
    cbv beta iota. erewrite bind_Ok; [reflexivity|].
    erewrite try_except_caught; [|exact Hte].
    erewrite bind_Ok; [|reflexivity]. exact Hfb. }
  exists cs, D, y, cs'.
  repeat split; try done.
  - intros e w' He. by rewrite Hrun.
  - intros body handler e wa wb. apply try_except_other.
Qed.

(** ** [AugmentedClassifier] *)

(** C2: [score] hands its two arguments to the model's [score] and
    returns what it returns; [predict] does not: a call with the
    features alone is rejected before the model is reached, and the
    only call it accepts sends a second argument on to the model's
    [predict]. *)
Theorem predict_forwards_extra_argument (clf : AugmentedClassifier)
    (X y : value) (e : E) :
  score clf [X; y] e = est_score (model clf) [X; y] e
  ∧ predict clf [X] e
    = (Raise (TypeError "predict() got the wrong number of positional arguments"), e)
  ∧ predict clf [X; y] e = est_predict (model clf) [X; y] e.
Proof. done. Qed.

(** C3: with [f = None], [fit] and [score] are the model's own, state
    change included; [predict] is not: where the model predicts from the
    features, the wrapper raises. *)
Theorem no_augmentation_predict_differs (id : nat) (m : estimator)
    (X Y : value) (e e' : E) (v : value) :
  est_predict m [X] e = (Ok v, e') →
  fit {| self_id := id; model := m; f := None |} [X; Y] e
  = est_fit m [X; Y] e
  ∧ score {| self_id := id; model := m; f := None |} [X; Y] e
    = est_score m [X; Y] e
  ∧ predict {| self_id := id; model := m; f := None |} [X] e
    ≠ est_predict m [X] e
  ∧ ∃ msg, predict {| self_id := id; model := m; f := None |} [X] e
           = (Raise (TypeError msg), e).
Proof.
  intros Hp. split; [done|]. split; [done|]. split.
  - rewrite Hp. discriminate.
  - by eexists.
Qed.

(** C10: [fit] returns what the model's [fit] returns, on the data as
    given when there is no augmentation and on the augmented data
    otherwise; a model that returns itself therefore makes [fit] return
    the model, which is not the wrapper. *)
Theorem fit_returns_model_result (clf : AugmentedClassifier) (X Y : value)
    (e : E) :
  (f clf = None → fit clf [X; Y] e = est_fit (model clf) [X; Y] e)
  ∧ (∀ g X_fake Y_fake e1,
       f clf = Some g → g X Y e = (Ok (X_fake, Y_fake), e1) →
       fit clf [X; Y] e = est_fit (model clf) [X_fake; Y_fake] e1)
  ∧ (est_id (model clf) ≠ self_id clf →
     (∀ args e0 r e1,
        est_fit (model clf) args e0 = (Ok r, e1) →
        r = VObj (est_id (model clf))) →
     ∀ r e1,
       fit clf [X; Y] e = (Ok r, e1) →
       r = VObj (est_id (model clf)) ∧ r ≠ VObj (self_id clf)).
Proof.
  split; [|split].
  - intros Hf. unfold fit. by rewrite Hf.
  - intros g X' Y' e1 Hf Hg. unfold fit. by rewrite Hf, Hg.
  - intros Hid Hself r e1 Hfit.
    assert (r = VObj (est_id (model clf))) as ->; [|split; congruence].
    unfold fit in Hfit. destruct (f clf) as [g|]; [|by eapply Hself].
    destruct (g X Y e) as [[[X' Y']|ex] e2]; [by eapply Hself|done].
Qed.

(** ** The hand-off file *)

(** C1: the path [do_classif] loads is not the default path the
    pre-projection script saves to, which [Path] and [np.save] leave as
    it is spelt; saving there leaves the loaded path as it was, and
    with no file at the loaded path [do_classif] never gets past its
    [np.load]: once the models directory is made it stops with
    [FileNotFoundError] (with [IsADirectoryError] if the loaded path
    names a directory), and if the directory cannot be made it stops
    there. *)
Theorem handoff_path_differs (images_path : list string)
    (Z_inv mask X : matrix) (labels : list row) (f : option augmentation)
    (method_name output_fname models_dir : string) (train_size : size_spec)
    (n_splits n_jobs : Z) (w : World) :
  fs w !! projected_X_path = None →
  projected_X_path ≠ output_path default_arguments
  ∧ Numpy.npy_name
      (Pathlib.str (Pathlib.parse (output_path default_arguments)))
    = output_path default_arguments
  ∧ ((np_save (Pathlib.str (Pathlib.parse (output_path default_arguments)))
        X w).1 = Ok () →
     fs (np_save (Pathlib.str (Pathlib.parse (output_path default_arguments)))
           X w).2
       !! output_path default_arguments = Some (NpyFile X))
  ∧ fs (np_save (Pathlib.str (Pathlib.parse (output_path default_arguments)))
          X w).2 !! projected_X_path
    = None
  ∧ do_classif images_path Z_inv mask labels f method_name output_fname
      models_dir train_size n_splits n_jobs
      (np_save (Pathlib.str (Pathlib.parse (output_path default_arguments)))
         X w).2
    = match mkdir (Pathlib.str (Pathlib.parse models_dir))
              (np_save
                 (Pathlib.str (Pathlib.parse (output_path default_arguments)))
                 X w).2 with
      | (Ok _, w') =>
          (Raise (if decide (projected_X_path ∈ dirs w')
                  then OtherError "IsADirectoryError"
                  else FileNotFoundError projected_X_path), w')
      | (Raise e, w') => (Raise e, w')
      end.
Proof.
  intros Hnone.
  assert (projected_X_path ≠ output_path default_arguments) as Hne
    by discriminate.
  assert (Numpy.npy_name
            (Pathlib.str (Pathlib.parse (output_path default_arguments)))
          = output_path default_arguments) as Hname by reflexivity.
  destruct (np_save _ X w) as [r w1] eqn:Hsave. simpl.
  unfold np_save in Hsave. rewrite Hname in Hsave.
  apply open_write_inv in Hsave
    as (_ & _ & [(-> & Hf & _)|(e & -> & ->)]).
  - assert (fs w1 !! projected_X_path = None) as Hafter.
    { by rewrite Hf, lookup_insert_ne. }
    split; [done|]. split; [done|].
    split; [intros _; by rewrite Hf, lookup_insert_eq|]. split; [done|].
    unfold do_classif. unfold mbind at 1. unfold M_bind at 1.
    destruct (mkdir _ w1) as [[[]|e] w2] eqn:Hmk; [|done].
    apply mkdir_inv in Hmk as (_ & Hf2 & _).
    erewrite bind_Raise; [reflexivity|].
    unfold np_load. rewrite Hf2, Hafter. by destruct decide.
  - split; [done|]. split; [done|]. split; [done|]. split; [done|].
    unfold do_classif. unfold mbind at 1. unfold M_bind at 1.
    destruct (mkdir _ w) as [[[]|e0] w2] eqn:Hmk; [|done].
    apply mkdir_inv in Hmk as (_ & Hf2 & _).
    erewrite bind_Raise; [reflexivity|].
    unfold np_load. rewrite Hf2, Hnone. by destruct decide.
Qed.

(** ** The subject splits *)

(** Drawing from a generator of its own, the loop runs its body on the
    splits of [iter_indices], whatever the body does in between. *)
Lemma iter_indices_for_private {B} (body : Z → list nat * list nat → M B)
    (r : rng) (k : nat) (i : Z) (n_samples n_train n_test : nat)
    (w : World) :
  iter_indices_for body (Private r) k i n_samples n_train n_test w
  = for_each (λ '(i_split, split), body i_split split)
      (enumerate_from i (iter_indices r k n_samples n_train n_test)) w.
Proof.
  revert r i w. induction k as [|k IH]; intros r i w; [done|].
  simpl. destruct (permutation r n_samples) as [perm r'].
  erewrite bind_Ok; [|reflexivity]. cbn [enumerate_from for_each].
  unfold mbind, M_bind.
  destruct (body i _ w) as [[y|e] w1]; [|done].
  by rewrite IH.
Qed.

(** A seeded splitter under a comprehension runs the body on its list
    of splits. *)
Lemma split_for_seeded {B} (body : Z → list nat * list nat → M B)
    (seed n_splits : Z) (train_size : size_spec) (n_samples : nat)
    (w : World) :
  ShuffleSplit_split_for
    {| n_splits := n_splits; train_size := train_size;
       random_state := Some seed |} n_samples body w
  = match seeded_splits seed n_splits train_size n_samples with
    | Raise e => (Raise e, w)
    | Ok splits =>
        for_each (λ '(i_split, split), body i_split split)
          (enumerate splits) w
    end.
Proof.
  unfold ShuffleSplit_split_for, seeded_splits. simpl.
  unfold mbind, M_bind, lift.
  destruct (validate_shuffle_split _ _) as [[n_train n_test]|]; [|done].
  apply iter_indices_for_private.
Qed.

Lemma enumerate_from_snd {A} (k : Z) (l : list A) :
  (enumerate_from k l).*2 = l.
Proof.
  revert k. induction l as [|x l IH]; intros k; [done|].
  simpl. by rewrite IH.
Qed.

Lemma for_each_snd {A} (l : list (Z * A)) (w : World) :
  for_each (λ '(_, x), mret x) l w = (Ok l.*2, w).
Proof.
  induction l as [|[i x] l IH]; [done|]. simpl.
  unfold mbind, M_bind, mret, M_ret in *. by rewrite IH.
Qed.

(** The body of the loop over [models] runs [do_split] on the subject
    splits of the label table, numbered from 0. *)
Lemma classif_model_seeded (images_path : list string) (projected_X : matrix)
    (labels : list row) (f : option augmentation) (method_name : string)
    (models_dir : Pathlib.Path) (train_size : size_spec) (n_splits n_jobs : Z)
    (model : estimator) (name : string) (w : World) :
  classif_model images_path projected_X labels f method_name models_dir
    train_size n_splits n_jobs (model, name) w
  = match subject_splits labels train_size n_splits with
    | Raise e => (Raise e, w)
    | Ok splits =>
        (for_each
           (λ '(i_split, split),
              do_split split images_path projected_X labels f model
                (Pandas.unique (subject <$> labels)) n_jobs
                (Pathlib.str (Pathlib.truediv models_dir name)) i_split)
           (enumerate splits)
         ≫= λ scores_split,
              mret ((λ '(i_split, score_split),
                       {| row_method_name := method_name;
                          row_algo := name;
                          row_score := score_split;
                          row_split := i_split |})
                      <$> enumerate scores_split)) w
    end.
Proof.
  unfold classif_model, subject_splits. unfold mbind at 1.
  unfold M_bind at 1. rewrite split_for_seeded.
  by destruct (seeded_splits _ _ _ _).
Qed.

(** C6: the generation of the splits, as the driver sets it up (a
    splitter with [random_state=0]), yields the same partitions in any
    two runs over label tables with the same number of distinct
    subjects: whatever the worlds the runs start in (the state of
    numpy's global generator and of every other object included) and
    whatever the loop does between two draws, the splits are those of a
    generator of its own seeded with 0; the loop body of the driver
    calls [do_split] on exactly these splits, numbered from 0. *)
Theorem subject_splits_reproducible (labels1 labels2 : list row)
    (train_size : size_spec) (n_splits : Z) :
  length (Pandas.unique (subject <$> labels1))
  = length (Pandas.unique (subject <$> labels2)) →
  (∀ w1 w2,
     (ShuffleSplit_split_for
        {| n_splits := n_splits; train_size := train_size;
           random_state := Some 0 |}
        (length (Pandas.unique (subject <$> labels1)))
        (λ _ split, mret split) w1).1
     = (ShuffleSplit_split_for
          {| n_splits := n_splits; train_size := train_size;
             random_state := Some 0 |}
          (length (Pandas.unique (subject <$> labels2)))
          (λ _ split, mret split) w2).1)
  ∧ (∀ w, (ShuffleSplit_split_for
             {| n_splits := n_splits; train_size := train_size;
                random_state := Some 0 |}
             (length (Pandas.unique (subject <$> labels1)))
             (λ _ split, mret split) w).1
          = subject_splits labels1 train_size n_splits)
  ∧ (∀ B (body : Z → list nat * list nat → M B) w,
       ShuffleSplit_split_for
         {| n_splits := n_splits; train_size := train_size;
            random_state := Some 0 |}
         (length (Pandas.unique (subject <$> labels1))) body w
       = match subject_splits labels2 train_size n_splits with
         | Raise e => (Raise e, w)
         | Ok splits =>
             for_each (λ '(i_split, split), body i_split split)
               (enumerate splits) w
         end)
  ∧ (∀ images_path projected_X f method_name models_dir n_jobs model name w,
       classif_model images_path projected_X labels1 f method_name
         models_dir train_size n_splits n_jobs (model, name) w
       = match subject_splits labels2 train_size n_splits with
         | Raise e => (Raise e, w)
         | Ok splits =>
             (for_each
                (λ '(i_split, split),
                   do_split split images_path projected_X labels1 f model
                     (Pandas.unique (subject <$> labels1)) n_jobs
                     (Pathlib.str (Pathlib.truediv models_dir name)) i_split)
                (enumerate splits)
              ≫= λ scores_split,
                   mret ((λ '(i_split, score_split),
                            {| row_method_name := method_name;
                               row_algo := name;
                               row_score := score_split;
                               row_split := i_split |})
                           <$> enumerate scores_split)) w
         end).
Proof.
  intros Hlen.
  assert (∀ n w,
            (ShuffleSplit_split_for
               {| n_splits := n_splits; train_size := train_size;
                  random_state := Some 0 |} n (λ _ split, mret split) w).1
            = seeded_splits 0 n_splits train_size n) as Hgen.
  { intros n w. rewrite split_for_seeded.
    destruct (seeded_splits _ _ _ _) as [splits|]; [|done].
    rewrite for_each_snd. simpl. unfold enumerate.
    by rewrite enumerate_from_snd. }
  assert (subject_splits labels2 train_size n_splits
          = subject_splits labels1 train_size n_splits) as Heq.
  { unfold subject_splits. by rewrite Hlen. }
  split; [|split; [|split]].
  - intros w1 w2. by rewrite !Hgen, Hlen.
  - intros w. apply Hgen.
  - intros B body w. rewrite Heq. apply split_for_seeded.
  - intros. rewrite Heq. apply classif_model_seeded.
Qed.


(** ** Indices in range and estimators that return *)

Lemma take_indices_in_range {A} (a : list A) (idx : list nat) :
  Forall (λ i, (i < length a)%nat) idx →
  ∃ xs, Numpy.take_indices a idx = Ok xs.
Proof.
  induction 1 as [|i idx Hi _ [xs IH]]; simpl; [by eexists|].
  destruct (lookup_lt_is_Some_2 a i Hi) as [x ->]. rewrite IH. by eexists.
Qed.


Lemma iter_indices_in_range (r : rng) (k n a b : nat) :
  (∀ r0, Forall (λ i, (i < n)%nat) (permutation r0 n).1) →
  Forall (λ sp, Forall (λ i, (i < n)%nat) sp.1
                ∧ Forall (λ i, (i < n)%nat) sp.2)
    (iter_indices r k n a b).
Proof.
  intros Hperm. revert r; induction k as [|k IH]; intros r; simpl;
    [constructor|].
  specialize (Hperm r). destruct (permutation r n) as [perm r']. simpl in *.
  constructor; [|apply IH]. simpl. split.
  - by apply Forall_take, Forall_drop.
  - by apply Forall_take.
Qed.





(** ** More on the label encoder *)

Lemma preprocess_label_supplied (Y : list row) (d : gmap string Z)
    (b : bool) (w : World) :
  preprocess_label Y (Some d) b w
  = match Pandas.apply (dict_getitem d) (contrast <$> Y) with
    | Ok cs =>
        (Ok (match b return encoded b with true => (cs, d) | false => cs end),
         after_reuse w)
    | Raise e => (Raise e, after_reuse w)
    end.
Proof.
  unfold preprocess_label, after_reuse.
  destruct b; unfold mbind, M_bind, mret, M_ret, lift; cbn;
    by destruct (Pandas.apply _ _).
Qed.

Lemma apply_getitem_first_missing (d : gmap string Z) (l1 l2 : list string)
    (y : string) :
  (∀ x, x ∈ l1 → is_Some (d !! x)) → d !! y = None →
  Pandas.apply (dict_getitem d) (l1 ++ y :: l2) = Raise (KeyError y).
Proof.
  induction l1 as [|a l1 IH]; intros Hl1 Hy; simpl.
  - unfold dict_getitem at 1. by rewrite Hy.
  - destruct (Hl1 a) as [c Hc]; [by left|].
    unfold dict_getitem at 1. rewrite Hc.
    rewrite IH; [done| |done]. intros x Hx. apply Hl1. by right.
Qed.

(** A supplied dictionary that has every contrast of the table is
    applied as it is: one code per row, the code the dictionary gives
    that row's contrast; the dictionary handed back is the one supplied,
    and nothing is rebuilt (the only message is the one of the
    application). *)
Theorem preprocess_label_supplied_dict (Y : list row) (d : gmap string Z)
    (w : World) :
  (∀ x, x ∈ contrast <$> Y → is_Some (d !! x)) →
  ∃ codes : list Z,
    preprocess_label Y (Some d) true w = (Ok (codes, d), after_reuse w)
    ∧ preprocess_label Y (Some d) false w = (Ok codes, after_reuse w)
    ∧ length codes = length Y
    ∧ (∀ i r, Y !! i = Some r → codes !! i = d !! contrast r)
    ∧ stdout (after_reuse w) = stdout w ++ ["     >>> Applying Y_dict"].
Proof.
  intros Hall. destruct (apply_getitem_total d _ Hall) as [cs Hcs].
  exists cs. rewrite !preprocess_label_supplied, Hcs.
  apply apply_getitem_Ok in Hcs.
  split; [done|]. split; [done|]. split; [|split; [|done]].
  - apply Forall2_length in Hcs. by rewrite length_fmap in Hcs.
  - intros i r Hi.
    assert ((contrast <$> Y) !! i = Some (contrast r)) as Hc
      by (by rewrite list_lookup_fmap, Hi).
    destruct (Forall2_lookup_l _ _ _ _ _ Hcs Hc) as (c & Hci & Hd).
    by rewrite Hd, Hci.
Qed.

(** A supplied dictionary that lacks a contrast of the table makes
    [preprocess_label] raise the [KeyError] of the first row whose
    contrast is missing, whatever [return_dict] is; the rows after it
    are not looked at. *)
Theorem preprocess_label_first_missing_key (Y1 Y2 : list row) (r : row)
    (d : gmap string Z) (b : bool) (w : World) :
  (∀ x, x ∈ contrast <$> Y1 → is_Some (d !! x)) →
  d !! contrast r = None →
  preprocess_label (Y1 ++ r :: Y2) (Some d) b w
  = (Raise (KeyError (contrast r)), after_reuse w).
Proof.
  intros Hall Hr. rewrite preprocess_label_supplied, fmap_app, fmap_cons.
  by rewrite apply_getitem_first_missing.
Qed.

(** The dictionary built from one table encodes any table whose
    contrasts all occur in the first, and a contrast gets the same code
    in both outputs. *)
Theorem built_dict_reused_consistently (Y Y' : list row) (w w' : World) :
  (∀ x, x ∈ contrast <$> Y' → x ∈ contrast <$> Y) →
  ∃ (codes : list Z) (D : gmap string Z) (codes' : list Z),
    preprocess_label Y None true w = (Ok (codes, D), after_build w)
    ∧ preprocess_label Y' (Some D) false w' = (Ok codes', after_reuse w')
    ∧ (∀ i j r r', Y !! i = Some r → Y' !! j = Some r' →
         contrast r = contrast r' → codes !! i = codes' !! j).
Proof.
  intros Hsub.
  set (D := dict_of_enumerated (enumerate (Pandas.unique (contrast <$> Y)))).
  destruct (built_dict_applies (contrast <$> Y)) as [cs Hcs].
  destruct (apply_getitem_total D (contrast <$> Y')) as [cs' Hcs'].
  { intros x Hx. apply built_dict_is_Some. by apply Hsub. }
  exists cs, D, cs'.
  rewrite preprocess_label_build, Hcs, preprocess_label_supplied, Hcs'.
  split; [done|]. split; [done|].
  apply apply_getitem_Ok in Hcs, Hcs'.
  intros i j r r' Hi Hj Heq.
  assert ((contrast <$> Y) !! i = Some (contrast r)) as Hc
    by (by rewrite list_lookup_fmap, Hi).
  assert ((contrast <$> Y') !! j = Some (contrast r')) as Hc'
    by (by rewrite list_lookup_fmap, Hj).
  destruct (Forall2_lookup_l _ _ _ _ _ Hcs Hc) as (c & -> & Hd).
  destruct (Forall2_lookup_l _ _ _ _ _ Hcs' Hc') as (c' & -> & Hd').
  subst D. simpl in *. congruence.
Qed.

Lemma built_codes_range (l : list string) (cs : list Z) (c : Z) :
  Pandas.apply
    (dict_getitem (dict_of_enumerated (enumerate (Pandas.unique l)))) l
  = Ok cs →
  c ∈ cs ↔ 0 ≤ c < Z.of_nat (length (Pandas.unique l)).
Proof.
  intros Hcs. apply apply_getitem_Ok in Hcs. split.
  - intros [i Hi]%list_elem_of_lookup.
    destruct (Forall2_lookup_r _ _ _ _ _ Hcs Hi) as (x & _ & Hx).
    apply built_dict_lookup in Hx as [H0 Hx].
    apply lookup_lt_Some in Hx. lia.
  - intros Hc.
    destruct (lookup_lt_is_Some_2 (Pandas.unique l) (Z.to_nat c))
      as [x Hx]; [lia|].
    assert (dict_of_enumerated (enumerate (Pandas.unique l)) !! x = Some c)
      as HD by (apply built_dict_lookup; split; [lia|done]).
    assert (x ∈ l) as Hin by (apply built_dict_is_Some; by eexists).
    apply list_elem_of_lookup in Hin as [i Hi].
    destruct (Forall2_lookup_l _ _ _ _ _ Hcs Hi) as (c' & Hci & Hd).
    apply list_elem_of_lookup. exists i. congruence.
Qed.

(** The codes of a freshly encoded table are dense: a number is in the
    output exactly when it is at least 0 and below the number of
    distinct contrasts. *)
Theorem preprocess_label_codes_dense (Y : list row) (w : World) :
  ∃ codes D,
    preprocess_label Y None true w = (Ok (codes, D), after_build w)
    ∧ (∀ c, c ∈ codes
            ↔ 0 ≤ c < Z.of_nat (length (Pandas.unique (contrast <$> Y)))).
Proof.
  destruct (built_dict_applies (contrast <$> Y)) as [cs Hcs].
  exists cs, (dict_of_enumerated (enumerate (Pandas.unique (contrast <$> Y)))).
  rewrite preprocess_label_build, Hcs. split; [done|].
  intros c. by apply built_codes_range.
Qed.

(** ** More on [do_split] *)
















(** When every contrast of the test rows occurs among the training
    rows, [do_split] logs no warning and encodes train and test with
    one dictionary: rows of equal contrast get equal codes on both
    sides. *)
Theorem do_split_seen_labels_share_codes (split : list nat * list nat)
    (data_paths : list string) (projected_X : matrix) (Y : list row)
    (f : option augmentation) (model : estimator) (subjects : list Z)
    (n_jobs : Z) (checkpoint_base_name : string) (i_split : Z)
    (train test : list bool) (w : World) :
  split_masks split Y subjects = Ok (train, test) →
  (∀ x, x ∈ contrast <$> Pandas.boolean_index test Y →
        x ∈ contrast <$> Pandas.boolean_index train Y) →
  ∃ Y_train Y_test : list Z,
    do_split split data_paths projected_X Y f model subjects n_jobs
      checkpoint_base_name i_split w
    = fit_checkpoint_score train test Y_train Y_test data_paths
        projected_X f model
        (checkpoint_base_name +:+ "_" +:+ pretty i_split +:+ ".pkl")
        (after_reuse (after_train_labels w))
    ∧ warnings (after_reuse (after_train_labels w)) = warnings w
    ∧ length Y_train = length (Pandas.boolean_index train Y)
    ∧ length Y_test = length (Pandas.boolean_index test Y)
    ∧ (∀ i j r r',
         Pandas.boolean_index train Y !! i = Some r →
         Pandas.boolean_index test Y !! j = Some r' →
         contrast r = contrast r' → Y_train !! i = Y_test !! j).
Proof.
  intros Hmasks Hseen.
  set (Ytr := Pandas.boolean_index train Y) in *.
  set (Yte := Pandas.boolean_index test Y) in *.
  set (D := dict_of_enumerated (enumerate (Pandas.unique (contrast <$> Ytr)))).
  destruct (built_dict_applies (contrast <$> Ytr)) as [cs Hcs].
  destruct (apply_getitem_total D (contrast <$> Yte)) as [cs' Hcs'].
  { intros x Hx. apply built_dict_is_Some. by apply Hseen. }
  assert (preprocess_label Ytr None true (print " >> preprocessing labels" w).2
          = (Ok (cs, D), after_train_labels w)) as Htr
    by (rewrite preprocess_label_build; by rewrite Hcs).
  assert (preprocess_label Yte (Some D) false (after_train_labels w)
          = (Ok cs', after_reuse (after_train_labels w))) as Hte
    by (rewrite preprocess_label_reuse; by rewrite Hcs').
  exists cs, cs'. split; [|split; [done|]].
  - unfold do_split.
    erewrite bind_Ok; [|unfold lift; by rewrite Hmasks].
    cbv beta iota. erewrite bind_Ok; [|reflexivity].
    erewrite bind_Ok; [|exact Htr].
    cbv beta iota. erewrite bind_Ok; [reflexivity|].
    by apply try_except_Ok.
  - apply apply_getitem_Ok in Hcs, Hcs'.
    split; [apply Forall2_length in Hcs; by rewrite length_fmap in Hcs|].
    split; [apply Forall2_length in Hcs'; by rewrite length_fmap in Hcs'|].
    intros i j r r' Hi Hj Heq.
    assert ((contrast <$> Ytr) !! i = Some (contrast r)) as Hc
      by (by rewrite list_lookup_fmap, Hi).
    assert ((contrast <$> Yte) !! j = Some (contrast r')) as Hc'
      by (by rewrite list_lookup_fmap, Hj).
    destruct (Forall2_lookup_l _ _ _ _ _ Hcs Hc) as (c & -> & Hd).
    destruct (Forall2_lookup_l _ _ _ _ _ Hcs' Hc') as (c' & -> & Hd').
    subst D. simpl in *. congruence.
Qed.

Lemma built_dict_head (x : string) (l : list string) :
  dict_of_enumerated (enumerate (Pandas.unique (x :: l))) !! x = Some 0.
Proof.
  apply built_dict_lookup. split; [done|].
  apply (unique_first_occurrence [] l x). by inversion 1.
Qed.

(** In the fallback of [do_split] the test labels are numbered afresh
    from the test rows alone: the first test row gets code 0 whatever
    code the training dictionary has for its contrast, and the test
    codes are exactly the numbers below the number of distinct test
    contrasts. *)
Theorem do_split_fallback_renumbers_test (split : list nat * list nat)
    (data_paths : list string) (projected_X : matrix) (Y : list row)
    (f : option augmentation) (model : estimator) (subjects : list Z)
    (n_jobs : Z) (checkpoint_base_name : string) (i_split : Z)
    (train test : list bool) (x : string) (w : World) :
  split_masks split Y subjects = Ok (train, test) →
  x ∈ contrast <$> Pandas.boolean_index test Y →
  x ∉ contrast <$> Pandas.boolean_index train Y →
  ∃ Y_train Y_test : list Z,
    do_split split data_paths projected_X Y f model subjects n_jobs
      checkpoint_base_name i_split w
    = fit_checkpoint_score train test Y_train Y_test data_paths
        projected_X f model
        (checkpoint_base_name +:+ "_" +:+ pretty i_split +:+ ".pkl")
        (after_fallback w)
    ∧ Y_test !! 0%nat = Some 0
    ∧ (∀ c, c ∈ Y_test
            ↔ 0 ≤ c < Z.of_nat (length (Pandas.unique
                          (contrast <$> Pandas.boolean_index test Y)))).
Proof.
  intros Hmasks Hx Hnx.
  set (Ytr := Pandas.boolean_index train Y) in *.
  set (Yte := Pandas.boolean_index test Y) in *.
  set (D := dict_of_enumerated (enumerate (Pandas.unique (contrast <$> Ytr)))).
  destruct (built_dict_applies (contrast <$> Ytr)) as [cs Hcs].
  assert (D !! x = None) as HDx.
  { apply eq_None_not_Some. intros H. by apply built_dict_is_Some in H. }
  destruct (apply_getitem_KeyError D _ x Hx HDx) as (y & Hy & HDy & Hraise).
  destruct (built_dict_applies (contrast <$> Yte)) as [cs' Hcs'].
  assert (preprocess_label Ytr None true (print " >> preprocessing labels" w).2
          = (Ok (cs, D), after_train_labels w)) as Htr
    by (rewrite preprocess_label_build; by rewrite Hcs).
  assert (preprocess_label Yte (Some D) false (after_train_labels w)
          = (Raise (KeyError y), after_reuse (after_train_labels w))) as Hte
    by (rewrite preprocess_label_reuse; by rewrite Hraise).
  assert (preprocess_label Yte None false
            (warning fallback_warning (after_reuse (after_train_labels w))).2
          = (Ok cs', after_fallback w)) as Hfb
    by (rewrite preprocess_label_build; by rewrite Hcs').
  exists cs, cs'.
  split; [|split; [|intros c; by apply built_codes_range]].
  - unfold do_split.
    erewrite bind_Ok; [|unfold lift; by rewrite Hmasks].
    cbv beta iota. erewrite bind_Ok; [|reflexivity].
    erewrite bind_Ok; [|exact Htr].
    cbv beta iota. erewrite bind_Ok; [reflexivity|].
    erewrite try_except_caught; [|exact Hte].
    erewrite bind_Ok; [|reflexivity]. exact Hfb.
  - apply apply_getitem_Ok in Hcs'.
    destruct (contrast <$> Yte) as [|x0 l] eqn:Hl; [by inversion Hx|].
    apply Forall2_cons_inv_l in Hcs' as (c0 & cs0 & Hc0 & _ & ->).
    rewrite built_dict_head in Hc0. by injection Hc0 as <-.
Qed.



(** ** Subject-level grouping *)

Lemma take_indices_elem {A} (a : list A) (idx : list nat) (xs : list A)
    (x : A) :
  Numpy.take_indices a idx = Ok xs → x ∈ xs →
  ∃ i, i ∈ idx ∧ a !! i = Some x.
Proof.
  revert xs; induction idx as [|i idx IH]; intros xs; simpl.
  - intros [= <-] Hx. inversion Hx.
  - destruct (a !! i) as [y|] eqn:Hy; [|done].
    destruct (Numpy.take_indices a idx) as [ys|]; [|done].
    intros [= <-] [->|Hx]%elem_of_cons.
    + exists i. split; [by left|done].
    + destruct (IH ys eq_refl Hx) as (j & Hj & Hjx).
      exists j. split; [by right|done].
Qed.

Lemma split_masks_no_shared_subject (labels : list row) (subjects : list Z)
    (split : list nat * list nat) :
  NoDup subjects →
  Forall (λ i, (i < length subjects)%nat) split.1 →
  Forall (λ i, (i < length subjects)%nat) split.2 →
  (∀ i, i ∈ split.1 → i ∈ split.2 → False) →
  ∃ mtrain mtest,
    split_masks split labels subjects = Ok (mtrain, mtest)
    ∧ (∀ i j r r', labels !! i = Some r → labels !! j = Some r' →
         subject r = subject r' →
         mtrain !! i = Some true → mtest !! j = Some true → False).
Proof.
  intros Hnd H1 H2 Hdisj.
  destruct (take_indices_in_range _ _ H1) as [train_s Htr].
  destruct (take_indices_in_range _ _ H2) as [test_s Hte].
  destruct split as [itrain itest]; simpl in *.
  exists (Pandas.isin (subject <$> labels) train_s),
         (Pandas.isin (subject <$> labels) test_s).
  unfold split_masks. rewrite Htr, Hte. split; [done|].
  intros i j r r' Hi Hj Heq (x & Hx & Hin)%isin_lookup
    (y & Hy & Hin')%isin_lookup.
  rewrite list_lookup_fmap, Hi in Hx. rewrite list_lookup_fmap, Hj in Hy.
  simpl in Hx, Hy. injection Hx as <-. injection Hy as <-.
  rewrite Heq in Hin.
  destruct (take_indices_elem _ _ _ _ Htr Hin) as (a & Ha & Hsa).
  destruct (take_indices_elem _ _ _ _ Hte Hin') as (b & Hb & Hsb).
  assert (a = b) as -> by (by eapply NoDup_lookup).
  by eapply Hdisj.
Qed.

(** Because the subjects come from [unique()], index lists that do not
    overlap select subjects that do not overlap: with the subjects of
    the table as [do_classif] computes them, no two rows of one subject
    are ever put on different sides of a split. *)
Theorem unique_subjects_split_never_leaks (labels : list row)
    (split : list nat * list nat) :
  Forall (λ i, (i < length (Pandas.unique (subject <$> labels)))%nat)
    split.1 →
  Forall (λ i, (i < length (Pandas.unique (subject <$> labels)))%nat)
    split.2 →
  (∀ i, i ∈ split.1 → i ∈ split.2 → False) →
  ∃ mtrain mtest,
    split_masks split labels (Pandas.unique (subject <$> labels))
    = Ok (mtrain, mtest)
    ∧ (∀ i j r r', labels !! i = Some r → labels !! j = Some r' →
         subject r = subject r' →
         mtrain !! i = Some true → mtest !! j = Some true → False).
Proof.
  intros H1 H2 Hdisj.
  apply split_masks_no_shared_subject; [apply unique_acc_NoDup|done..].
Qed.

Lemma iter_indices_disjoint (r : rng) (k n a b : nat) :
  (∀ r0, NoDup (permutation r0 n).1) →
  Forall (λ sp : list nat * list nat, ∀ i, i ∈ sp.1 → i ∈ sp.2 → False)
    (iter_indices r k n a b).
Proof.
  intros Hperm. revert r; induction k as [|k IH]; intros r; simpl;
    [constructor|].
  specialize (Hperm r). destruct (permutation r n) as [perm r']. simpl in *.
  constructor; [|apply IH]. simpl. intros i Hi1 Hi2.
  rewrite <- (take_drop b perm) in Hperm.
  apply NoDup_app in Hperm as (_ & Hdisj & _).
  apply (Hdisj i Hi2).
  apply elem_of_take in Hi1 as (j & Hj & _).
  by apply list_elem_of_lookup_2 in Hj.
Qed.

(** With a generator whose permutations of [range(n)] have no repeats
    and stay in range, every split [do_classif] generates keeps each
    subject on one side: the masks [do_split] computes for it never put
    two rows of one subject in train and in test. *)
Theorem generated_splits_never_leak (labels : list row)
    (train_size : size_spec) (n_splits : Z)
    (splits : list (list nat * list nat)) (split : list nat * list nat) :
  (∀ r, NoDup (permutation r
                 (length (Pandas.unique (subject <$> labels)))).1) →
  (∀ r, Forall (λ i, (i < length (Pandas.unique (subject <$> labels)))%nat)
          (permutation r (length (Pandas.unique (subject <$> labels)))).1) →
  subject_splits labels train_size n_splits = Ok splits →
  split ∈ splits →
  ∃ mtrain mtest,
    split_masks split labels (Pandas.unique (subject <$> labels))
    = Ok (mtrain, mtest)
    ∧ (∀ i j r r', labels !! i = Some r → labels !! j = Some r' →
         subject r = subject r' →
         mtrain !! i = Some true → mtest !! j = Some true → False).
Proof.
  intros Hnd Hrange Hsplits Hin.
  unfold subject_splits, seeded_splits in Hsplits. simpl in Hsplits.
  destruct (validate_shuffle_split _ _) as [[n_train n_test]|]; [|done].
  injection Hsplits as <-.
  pose proof (iter_indices_in_range (RandomState 0) (Z.to_nat n_splits) _
                n_train n_test Hrange) as Hr.
  pose proof (iter_indices_disjoint (RandomState 0) (Z.to_nat n_splits) _
                n_train n_test Hnd) as Hd.
  rewrite Forall_forall in Hr, Hd.
  destruct (Hr _ Hin) as [H1 H2].
  apply split_masks_no_shared_subject;
    [apply unique_acc_NoDup | done | done | by apply Hd].
Qed.

(** ** What a run writes *)

(** Whatever [c] does, all it writes are checkpoints. *)
Definition writes_checkpoints_only {A} (c : M A) : Prop :=
  ∀ w r w', c w = (r, w') →
    ∃ pk, writes w' = writes w ++ pk
          ∧ Forall (λ pf, ∃ p, pf.2 = PklFile p) pk.

Lemma wco_same_writes {A} (c : M A) :
  (∀ w r w', c w = (r, w') → writes w' = writes w) →
  writes_checkpoints_only c.
Proof.
  intros H w r w' Hc. exists []. rewrite app_nil_r.
  split; [by eapply H|constructor].
Qed.

Lemma wco_bind {A B} (c : M A) (k : A → M B) :
  writes_checkpoints_only c → (∀ a, writes_checkpoints_only (k a)) →
  writes_checkpoints_only (c ≫= k).
Proof.
  intros Hc Hk w r w'. unfold mbind, M_bind.
  destruct (c w) as [[a|e] w1] eqn:Hcw.
  - intros Hka. destruct (Hc _ _ _ Hcw) as (p1 & H1 & F1).
    destruct (Hk a _ _ _ Hka) as (p2 & H2 & F2).
    exists (p1 ++ p2). rewrite H2, H1, <- app_assoc.
    split; [done|]. by apply Forall_app.
  - intros [= <- <-]. by eapply Hc.
Qed.

Lemma wco_ret {A} (a : A) : writes_checkpoints_only (mret a).
Proof. apply wco_same_writes. by intros w r w' [= <- <-]. Qed.

Lemma wco_lift {A} (x : result A) : writes_checkpoints_only (lift x).
Proof. apply wco_same_writes. by intros w r w' [= <- <-]. Qed.

Lemma wco_print (s : string) : writes_checkpoints_only (print s).
Proof. apply wco_same_writes. by intros w r w' [= <- <-]. Qed.

Lemma wco_warning (s : string) : writes_checkpoints_only (warning s).
Proof. apply wco_same_writes. by intros w r w' [= <- <-]. Qed.

Lemma wco_new_id : writes_checkpoints_only new_id.
Proof. apply wco_same_writes. by intros w r w' [= <- <-]. Qed.

Lemma wco_open_wb (path : string) : writes_checkpoints_only (open_wb path).
Proof.
  apply wco_same_writes. intros w r w' H.
  by apply open_wb_inv in H as (_ & _ & ? & _).
Qed.

Lemma wco_mkdir (path : string) : writes_checkpoints_only (mkdir path).
Proof.
  apply wco_same_writes. intros w r w' H.
  by apply mkdir_inv in H as (_ & _ & ? & _).
Qed.

Lemma wco_np_load (path : string) : writes_checkpoints_only (np_load path).
Proof.
  apply wco_same_writes. intros w r w' H.
  by apply np_load_inv in H as [-> _].
Qed.

Lemma wco_call {A} (c : E → result A * E) : writes_checkpoints_only (call c).
Proof.
  apply wco_same_writes. intros w r w'. unfold call.
  destruct (c (ext w)) as [r0 e']. by intros [= <- <-].
Qed.

Lemma wco_pickle_dump (clf : AugmentedClassifier) (path : string) :
  writes_checkpoints_only (pickle_dump clf path).
Proof.
  intros w r w'. unfold pickle_dump.
  destruct (pickle_dumps clf (ext w)) as [p|e].
  - intros [= <- <-]. exists [(path, PklFile p)]. split; [done|].
    constructor; [by eexists|constructor].
  - intros [= <- <-]. exists []. simpl. by rewrite app_nil_r.
Qed.

Lemma wco_try {A} (body handler : M A) :
  writes_checkpoints_only body → writes_checkpoints_only handler →
  writes_checkpoints_only (try_except_KeyError body handler).
Proof.
  intros Hb Hh w r w'. unfold try_except_KeyError.
  destruct (body w) as [[a|e] w1] eqn:Hbw.
  - intros [= <- <-]. by eapply Hb.
  - destruct (is_KeyError e).
    + intros Hhw. destruct (Hb _ _ _ Hbw) as (p1 & H1 & F1).
      destruct (Hh _ _ _ Hhw) as (p2 & H2 & F2).
      exists (p1 ++ p2). rewrite H2, H1, <- app_assoc.
      split; [done|]. by apply Forall_app.
    + intros [= <- <-]. by eapply Hb.
Qed.

Lemma wco_for_each {A B} (body : A → M B) (l : list A) :
  (∀ x, writes_checkpoints_only (body x)) →
  writes_checkpoints_only (for_each body l).
Proof.
  intros Hbody. induction l as [|x l IH]; simpl; [apply wco_ret|].
  apply wco_bind; [done|]. intros y.
  apply wco_bind; [done|]. intros ys. apply wco_ret.
Qed.

Lemma wco_preprocess_label (Y : list row) (d : option (gmap string Z))
    (b : bool) :
  writes_checkpoints_only (preprocess_label Y d b).
Proof.
  unfold preprocess_label. apply wco_bind.
  - destruct d; [apply wco_ret|].
    apply wco_bind; [apply wco_print|]. intros _. apply wco_ret.
  - intros D. apply wco_bind; [apply wco_print|]. intros _.
    destruct b; [|apply wco_lift].
    apply wco_bind; [apply wco_lift|]. intros cs. apply wco_ret.
Qed.

Lemma wco_do_split (split : list nat * list nat) (data_paths : list string)
    (projected_X : matrix) (Y : list row) (f : option augmentation)
    (model : estimator) (subjects : list Z) (n_jobs : Z)
    (checkpoint_base_name : string) (i_split : Z) :
  writes_checkpoints_only
    (do_split split data_paths projected_X Y f model subjects n_jobs
       checkpoint_base_name i_split).
Proof.
  unfold do_split, fit_checkpoint_score.
  apply wco_bind; [apply wco_lift|]. intros [train test].
  apply wco_bind; [apply wco_print|]. intros _.
  apply wco_bind; [apply (wco_preprocess_label _ None true)|].
  intros [Y_train D].
  apply wco_bind.
  { apply wco_try; [apply (wco_preprocess_label _ (Some D) false)|].
    apply wco_bind; [apply wco_warning|]. intros _.
    apply (wco_preprocess_label _ None false). }
  intros Y_test.
  apply wco_bind; [apply wco_lift|]. intros X_train.
  apply wco_bind; [apply wco_print|]. intros _.
  apply wco_bind; [apply wco_lift|]. intros X_test.
  apply wco_bind; [apply wco_new_id|]. intros id.
  apply wco_bind; [apply wco_print|]. intros _.
  apply wco_bind; [apply wco_call|]. intros _.
  apply wco_bind; [apply wco_open_wb|]. intros _.
  apply wco_bind; [apply wco_pickle_dump|]. intros _.
  apply wco_bind; [apply wco_print|]. intros _.
  apply wco_bind; [apply wco_call|]. intros v. apply wco_ret.
Qed.

Lemma wco_rng_permutation (g : generator) (n : nat) :
  writes_checkpoints_only (rng_permutation g n).
Proof.
  destruct g as [|r]; simpl.
  - apply wco_bind; [apply wco_call|]. intros perm. apply wco_ret.
  - destruct (permutation r n). apply wco_ret.
Qed.

Lemma wco_iter_indices_for {B} (body : Z → list nat * list nat → M B)
    (g : generator) (k : nat) (i : Z) (n_samples n_train n_test : nat) :
  (∀ i split, writes_checkpoints_only (body i split)) →
  writes_checkpoints_only
    (iter_indices_for body g k i n_samples n_train n_test).
Proof.
  intros Hbody. revert g i. induction k as [|k IH]; intros g i; simpl;
    [apply wco_ret|].
  apply wco_bind; [apply wco_rng_permutation|]. intros [perm g'].
  apply wco_bind; [done|]. intros y.
  apply wco_bind; [done|]. intros ys. apply wco_ret.
Qed.

Lemma wco_classif_model (images_path : list string) (projected_X : matrix)
    (labels : list row) (f : option augmentation) (method_name : string)
    (models_dir : Pathlib.Path) (train_size : size_spec)
    (n_splits n_jobs : Z) (entry : estimator * string) :
  writes_checkpoints_only
    (classif_model images_path projected_X labels f method_name models_dir
       train_size n_splits n_jobs entry).
Proof.
  destruct entry as [model name]. unfold classif_model.
  apply wco_bind; [|intros ys; apply wco_ret].
  unfold ShuffleSplit_split_for.
  apply wco_bind; [apply wco_lift|]. intros [n_train n_test].
  apply wco_iter_indices_for. intros i split. apply wco_do_split.
Qed.

(** A run of [do_classif] that raises has written no results table:
    whatever it wrote before the exception are checkpoints. *)
Theorem failed_run_writes_no_table (images_path : list string)
    (Z_inv mask : matrix) (labels : list row) (f : option augmentation)
    (method_name output_fname models_dir : string) (train_size : size_spec)
    (n_splits n_jobs : Z) (e : exn) (w w' : World) :
  do_classif images_path Z_inv mask labels f method_name output_fname
    models_dir train_size n_splits n_jobs w = (Raise e, w') →
  ∃ pk, writes w' = writes w ++ pk
        ∧ Forall (λ pf, ∃ p, pf.2 = PklFile p) pk.
Proof.
  unfold do_classif, to_csv. intros Hrun.
  assert (writes_checkpoints_only
            (mkdir (Pathlib.str (Pathlib.parse models_dir))
             ≫= λ _, np_load projected_X_path
             ≫= λ projected_X,
                  for_each
                    (classif_model images_path projected_X labels f
                       method_name (Pathlib.parse models_dir) train_size
                       n_splits n_jobs) models)) as Hbefore.
  { apply wco_bind; [apply wco_mkdir|]. intros _.
    apply wco_bind; [apply wco_np_load|]. intros pX.
    apply wco_for_each. intros entry. apply wco_classif_model. }
  apply bind_inv in Hrun as [(e0 & H & _)|(? & w1 & H1 & Hrun)].
  { eapply (Hbefore w). by erewrite bind_Raise. }
  apply bind_inv in Hrun as [(e0 & H & _)|(pX & w2 & H2 & Hrun)].
  { eapply (Hbefore w). erewrite bind_Ok; [|exact H1]. by erewrite bind_Raise. }
  apply bind_inv in Hrun as [(e0 & H & _)|(scores & w3 & H3 & Hrun)].
  { eapply (Hbefore w). erewrite bind_Ok; [|exact H1].
    erewrite bind_Ok; [|exact H2]. exact H. }
  apply open_write_inv in Hrun as (_ & _ & [([=] & _)|(_ & _ & ->)]).
  eapply (Hbefore w). erewrite bind_Ok; [|exact H1].
  erewrite bind_Ok; [|exact H2]. exact H3.
Qed.

(** ** The checkpoints and the table of a run that returns *)





(** The file of the checkpoint of split [i] of the model called [name]. *)
Definition checkpoint_path (models_dir : Pathlib.Path) (name : string)
    (i : Z) : string :=
  Pathlib.str (Pathlib.truediv models_dir name)
    +:+ "_" +:+ pretty i +:+ ".pkl".
















(** ** The pre-projection script *)









(** A run of the script that returns has fetched the images, made sure
    of the directory of the output file, loaded both projector arrays,
    projected, and saved the projection under the name [np.save] makes
    of the output path ([.npy] appended when the path does not end with
    it): loading that name afterwards gives the projection back. An
    output path that [Path] leaves as it is and that ends with [.npy]
    is the name of the saved file. *)
Theorem pre_project_main_saves_projection
    (fetch_nv : string → option Z → Z → E → result (list string) * E)
    (project_to_difumo :
       list string → matrix → matrix → Z → E → result matrix * E)
    (args : arguments) (w w' : World) :
  pre_project_main fetch_nv project_to_difumo args w = (Ok (), w') →
  ∃ images Z_inv mask X e1,
    fetch_nv (data_dir args) (max_images args) (verbose args) (ext w)
    = (Ok images, e1)
    ∧ fs w !! "../hcp900_difumo_matrices/Zinv.npy" = Some (NpyFile Z_inv)
    ∧ fs w !! "../hcp900_difumo_matrices/mask.npy" = Some (NpyFile mask)
    ∧ project_to_difumo images Z_inv mask (njobs args) e1 = (Ok X, ext w')
    ∧ Pathlib.str (Pathlib.parent (Pathlib.parse (output_path args)))
      ∈ dirs w'
    ∧ fs w'
      = <[Numpy.npy_name (Pathlib.str (Pathlib.parse (output_path args)))
          := NpyFile X]> (fs w)
    ∧ np_load
        (Numpy.npy_name (Pathlib.str (Pathlib.parse (output_path args)))) w'
      = (Ok X, w')
    ∧ (Pathlib.str (Pathlib.parse (output_path args)) = output_path args →
       endswith (output_path args) ".npy" = true →
       fs w' = <[output_path args := NpyFile X]> (fs w)).
Proof.
  unfold pre_project_main. intros H.
  apply bind_inv in H as [(? & _ & [=])|(? & w1 & H1 & H)].
  apply print_inv in H1 as (_ & He1 & Hf1 & _).
  apply bind_inv in H as [(? & _ & [=])|(images & w2 & H2 & H)].
  apply call_inv in H2 as (Hfetch & Hf2 & _).
  cbv zeta in H.
  apply bind_inv in H as [(? & _ & [=])|([] & w3 & H3 & H)].
  apply mkdir_inv in H3 as (He3 & Hf3 & _ & Hd3).
  destruct (Hd3 eq_refl) as [Hd3' _]. clear Hd3.
  apply bind_inv in H as [(? & _ & [=])|(? & w4 & H4 & H)].
  apply print_inv in H4 as (_ & He4 & Hf4 & _ & Hd4).
  apply bind_inv in H as [(? & _ & [=])|(Z_inv & w5 & H5 & H)].
  apply np_load_inv in H5 as [-> HZ]. specialize (HZ _ eq_refl).
  apply bind_inv in H as [(? & _ & [=])|(mask & w6 & H6 & H)].
  apply np_load_inv in H6 as [-> Hm]. specialize (Hm _ eq_refl).
  apply bind_inv in H as [(? & _ & [=])|(? & w7 & H7 & H)].
  apply print_inv in H7 as (_ & He7 & Hf7 & _ & Hd7).
  apply bind_inv in H as [(? & _ & [=])|(X & w8 & H8 & H)].
  apply call_inv in H8 as (Hproj & Hf8 & _ & Hd8).
  apply bind_inv in H as [(? & _ & [=])|(? & w9 & H9 & H)].
  apply print_inv in H9 as (_ & He9 & Hf9 & _ & Hd9).
  unfold np_save in H.
  apply open_write_inv in H as (He & Hd & [(_ & Hf & _)|(? & [=] & _)]).
  assert (fs w'
          = <[Numpy.npy_name (Pathlib.str (Pathlib.parse (output_path args)))
              := NpyFile X]> (fs w)) as Hfs.
  { rewrite Hf. f_equal. congruence. }
  exists images, Z_inv, mask, X, (ext w2).
  split; [congruence|].
  split; [congruence|]. split; [congruence|].
  split; [congruence|].
  split; [by rewrite Hd, Hd9, Hd8, Hd7, Hd4|].
  split; [done|].
  split; [unfold np_load; by rewrite Hfs, lookup_insert_eq|].
  intros Hstr Hnpy. rewrite Hfs. unfold Numpy.npy_name.
  by rewrite Hstr, Hnpy.
Qed.


End Pipeline.

(** ** A small instance

    Scores are integers, the state of the external objects counts the
    calls of [fit] and the draws from the global generator, a pickle is
    a snapshot of that counter, a random generator alternates between
    [range(n)] and its reverse, [train_size] is an integer number of
    subjects, and the operating system creates a directory or a file
    where the parent directory exists. *)

Definition toy_os_error (op : os_op) (dirs : gset string) : option exn :=
  let path := match op with Mkdir path | OpenWrite path => path end in
  if decide (Pathlib.str (Pathlib.parent (Pathlib.parse path)) ∈ dirs)
  then None
  else Some (FileNotFoundError path).

Definition toy_pickle_dumps (clf : AugmentedClassifier Z nat) (e : nat)
  : result nat := Ok e.

Definition toy_pickle_partial (clf : AugmentedClassifier Z nat) (e : nat)
  : nat := e.

Definition toy_RandomState (seed : Z) : nat := Z.to_nat seed.

Definition toy_permutation (r n : nat) : list nat * nat :=
  (if Nat.even r then seq 0 n else reverse (seq 0 n), S r).

Definition toy_global_permutation (n e : nat) : list nat * nat :=
  toy_permutation e n.

Definition toy_validate (n_samples train_size : nat) : result (nat * nat) :=
  if bool_decide (0 < train_size < n_samples)%nat
  then Ok (train_size, (n_samples - train_size)%nat)
  else Raise (ValueError "train_size out of range").

(** An estimator with scikit-learn's signatures: [fit(X, y)] returns the
    estimator itself, [predict(X)] takes the features alone, and
    [score(X, y)] returns a number. *)
Definition toy_estimator (id : nat) (s : Z) : estimator Z nat :=
  {| est_id := id;
     est_fit := λ args e,
       match args with
       | [_; _] => (Ok (VObj Z id), S e)
       | _ => (Raise (TypeError "fit() takes 2 positional arguments"), e)
       end;
     est_predict := λ args e,
       match args with
       | [VMatrix _ rows] => (Ok (VCodes Z ((λ _ : list Z, 0) <$> rows)), e)
       | [_] => (Ok (VCodes Z []), e)
       | _ => (Raise (TypeError "predict() takes 1 positional argument"), e)
       end;
     est_score := λ args e,
       match args with
       | [_; _] => (Ok (VFloat Z s), e)
       | _ => (Raise (TypeError "score() takes 2 positional arguments"), e)
       end |}.

Definition toy_labels : list row :=
  [ {| contrast := "A"; subject := 1 |}; {| contrast := "B"; subject := 1 |};
    {| contrast := "A"; subject := 2 |}; {| contrast := "C"; subject := 3 |} ].

(** The same table with a contrast that only subject 3 has. *)
Definition toy_labels_unseen : list row :=
  [ {| contrast := "A"; subject := 1 |}; {| contrast := "B"; subject := 1 |};
    {| contrast := "A"; subject := 2 |}; {| contrast := "D"; subject := 3 |} ].

Definition toy_images : list string := ["s1a.nii"; "s1b.nii"; "s2a.nii"; "s3c.nii"].

Definition toy_matrix : matrix Z := [[10; 11]; [20; 21]; [30; 31]; [40; 41]].

(** The directories of the instance: the working directory, its
    parent, and the two data directories next to it. *)
Definition toy_dirs : gset string :=
  {[ "."; ".."; "../hcp900_difumo_matrices"; "../hcp900_difumo_matrics" ]}.

Definition toy_empty : World Z nat nat :=
  {| stdout := []; warnings := []; dirs := toy_dirs; fs := ∅; writes := [];
     next_id := 100; ext := 0%nat |}.

(** A world with the feature file where [do_classif] looks for it. *)
Definition toy_world : World Z nat nat :=
  {| stdout := []; warnings := []; dirs := toy_dirs;
     fs := {[ projected_X_path := NpyFile Z nat toy_matrix ]};
     writes := []; next_id := 100; ext := 0%nat |}.


(** The same world after three calls into the external objects. *)
Definition toy_later : World Z nat nat :=
  {| stdout := []; warnings := []; dirs := toy_dirs;
     fs := {[ projected_X_path := NpyFile Z nat toy_matrix ]};
     writes := []; next_id := 100; ext := 3%nat |}.

(** The body of a comprehension that collects the splits. *)
Definition toy_collect (i_split : Z) (split : list nat * list nat)
  : M Z nat nat (list nat * list nat) :=
  M_ret Z nat nat _ split.

Definition toy_do_classif_in (models_dir : string) (labels : list row)
    (n_splits : Z) : M Z nat nat unit :=
  do_classif Z nat nat toy_os_error toy_pickle_dumps toy_pickle_partial nat
    toy_RandomState toy_permutation toy_global_permutation nat toy_validate
    (toy_estimator 1 900) (toy_estimator 2 800)
    toy_images [] [] labels None "none" "scores.csv" models_dir 2%nat
    n_splits 5.

Definition toy_do_classif (labels : list row) (n_splits : Z)
  : M Z nat nat unit :=
  toy_do_classif_in "models" labels n_splits.

(** *** The model runs *)

Example toy_preprocess_label :
  (preprocess_label Z nat nat toy_labels None true toy_empty).1
  = Ok ([0; 1; 0; 2], {[ "A" := 0; "B" := 1; "C" := 2 ]}).
Proof. vm_compute. reflexivity. Qed.

Example toy_preprocess_label_unseen :
  (preprocess_label Z nat nat toy_labels_unseen
     (Some {[ "A" := 0; "B" := 1; "C" := 2 ]}) false toy_empty).1
  = Raise (KeyError "D").
Proof. vm_compute. reflexivity. Qed.

Example toy_predict_features_only :
  est_predict Z nat (toy_estimator 1 900) [VMatrix Z toy_matrix] 0%nat
  = (Ok (VCodes Z [0; 0; 0; 0]), 0%nat)
  ∧ predict Z nat {| self_id := 7; model := toy_estimator 1 900; f := None |}
      [VMatrix Z toy_matrix] 0%nat
    = (Raise (TypeError "predict() got the wrong number of positional arguments"),
       0%nat)
  ∧ predict Z nat {| self_id := 7; model := toy_estimator 1 900; f := None |}
      [VMatrix Z toy_matrix; VCodes Z [0; 1; 0; 2]] 0%nat
    = (Raise (TypeError "predict() takes 1 positional argument"), 0%nat).
Proof. vm_compute. done. Qed.

Example toy_run_table :
  ((toy_do_classif toy_labels 5 toy_world).1,
   fs Z nat nat (toy_do_classif toy_labels 5 toy_world).2 !! "scores.csv")
  = (Ok (),
     Some (CsvFile Z nat ["method_name"; "algo"; "score"; "split"]
       ((λ '(a, s, k), {| row_method_name := "none"; row_algo := a;
                          row_score := VFloat Z s; row_split := k |})
        <$> [("LDA", 900, 0); ("LDA", 900, 1); ("LDA", 900, 2);
             ("LDA", 900, 3); ("LDA", 900, 4); ("RF", 800, 0);
             ("RF", 800, 1); ("RF", 800, 2); ("RF", 800, 3);
             ("RF", 800, 4)]))).
Proof. vm_compute. reflexivity. Qed.

(** The seed matters: a splitter with [random_state=None] draws from
    the global generator, and the same call gives other splits in a
    world where that generator has moved on. *)
Example toy_unseeded_splits_differ :
  (ShuffleSplit_split_for Z nat nat nat toy_RandomState toy_permutation
     toy_global_permutation nat toy_validate
     {| n_splits := 1; train_size := 2%nat; random_state := None |} 3
     toy_collect toy_world).1
  = Ok [([1; 2]%nat, [0%nat])]
  ∧ (ShuffleSplit_split_for Z nat nat nat toy_RandomState toy_permutation
       toy_global_permutation nat toy_validate
       {| n_splits := 1; train_size := 2%nat; random_state := None |} 3
       toy_collect toy_later).1
    = Ok [([1; 0]%nat, [2%nat])]
  ∧ (ShuffleSplit_split_for Z nat nat nat toy_RandomState toy_permutation
       toy_global_permutation nat toy_validate
       {| n_splits := 1; train_size := 2%nat; random_state := Some 0 |} 3
       toy_collect toy_world).1
    = (ShuffleSplit_split_for Z nat nat nat toy_RandomState toy_permutation
         toy_global_permutation nat toy_validate
         {| n_splits := 1; train_size := 2%nat; random_state := Some 0 |} 3
         toy_collect toy_later).1.
Proof. vm_compute. done. Qed.

(** A models directory below a directory that is not there: the run
    stops at its [mkdir]. *)
Example toy_run_missing_parent :
  (toy_do_classif_in "no/such/parent/dir" toy_labels 5 toy_world).1
  = Raise (FileNotFoundError "no/such/parent/dir").
Proof. vm_compute. reflexivity. Qed.

(** [pathlib] spells the checkpoint paths: an empty models directory
    and one with a trailing slash. *)
Example toy_checkpoint_paths :
  checkpoint_path (Pathlib.parse "") "LDA" 0 = "LDA_0.pkl"
  ∧ checkpoint_path (Pathlib.parse "models/") "LDA" 0 = "models/LDA_0.pkl"
  ∧ checkpoint_path (Pathlib.parse "/tmp//m/./x") "RF" 3 = "/tmp/m/x/RF_3.pkl"
  ∧ Numpy.npy_name "out/difumo_data" = "out/difumo_data.npy"
  ∧ Numpy.npy_name "out/difumo_data.npy" = "out/difumo_data.npy".
Proof. vm_compute. done. Qed.

Example toy_run_fallback_warns :
  warnings Z nat nat (toy_do_classif toy_labels_unseen 1 toy_world).2
  = ["NOT PASSING TRAIN LABELS DICTIONARY TO TEST SET";
     "NOT PASSING TRAIN LABELS DICTIONARY TO TEST SET"].
Proof. vm_compute. reflexivity. Qed.

(** *** The theorems at the instance *)


Lemma handoff_path_differs_witness :
  fs Z nat nat toy_empty !! projected_X_path = None
  ∧ np_save Z nat nat toy_os_error
      (Pathlib.str (Pathlib.parse (output_path default_arguments)))
      toy_matrix toy_empty
    = (Ok (),
       {| stdout := []; warnings := []; dirs := toy_dirs;
          fs := {[ output_path default_arguments
                   := NpyFile Z nat toy_matrix ]};
          writes := [(output_path default_arguments,
                      NpyFile Z nat toy_matrix)];
          next_id := 100; ext := 0%nat |})
  ∧ (toy_do_classif toy_labels 5
       (np_save Z nat nat toy_os_error
          (Pathlib.str (Pathlib.parse (output_path default_arguments)))
          toy_matrix toy_empty).2).1
    = Raise (FileNotFoundError projected_X_path).
Proof.
  split; [reflexivity|]. split; [vm_compute; reflexivity|].
  destruct (handoff_path_differs Z nat nat toy_os_error toy_pickle_dumps
              toy_pickle_partial nat toy_RandomState toy_permutation
              toy_global_permutation nat toy_validate
              (toy_estimator 1 900) (toy_estimator 2 800) toy_images [] []
              toy_matrix toy_labels None "none" "scores.csv" "models" 2%nat
              5 5 toy_empty) as (_ & _ & _ & _ & Hrun); [reflexivity|].
  unfold toy_do_classif, toy_do_classif_in. rewrite Hrun.
  vm_compute. reflexivity.
Defined.

Lemma no_augmentation_predict_differs_witness :
  est_predict Z nat (toy_estimator 1 900) [VMatrix Z toy_matrix] 0%nat
  = (Ok (VCodes Z [0; 0; 0; 0]), 0%nat)
  ∧ ∃ msg,
      predict Z nat {| self_id := 7; model := toy_estimator 1 900; f := None |}
        [VMatrix Z toy_matrix] 0%nat
      = (Raise (TypeError msg), 0%nat).
Proof.
  split; [reflexivity|].
  destruct (no_augmentation_predict_differs Z nat 7 (toy_estimator 1 900)
              (VMatrix Z toy_matrix) (VCodes Z [0; 1; 0; 2]) 0%nat 0%nat
              (VCodes Z [0; 0; 0; 0])) as (_ & _ & _ & Hraise);
    [reflexivity|].
  exact Hraise.
Defined.

Lemma fit_returns_model_result_witness :
  fit Z nat {| self_id := 7; model := toy_estimator 1 900; f := None |}
    [VPaths Z toy_images; VCodes Z [0; 1; 0; 2]] 0%nat
  = (Ok (VObj Z 1), 1%nat)
  ∧ VObj Z 1 ≠ VObj Z 7.
Proof.
  destruct (fit_returns_model_result Z nat
              {| self_id := 7; model := toy_estimator 1 900; f := None |}
              (VPaths Z toy_images) (VCodes Z [0; 1; 0; 2]) 0%nat)
    as (_ & _ & Hself).
  split; [reflexivity|].
  apply (Hself (ltac:(simpl; lia))) with (e1 := 1%nat); [|reflexivity].
  intros args e0 r e1. simpl.
  destruct args as [|a [|b [|c args]]]; simpl; congruence.
Defined.

Lemma split_masks_disjoint_cover_witness :
  ∃ mtrain mtest,
    split_masks ([0; 2]%nat, [1%nat]) toy_labels [1; 2; 3]
    = Ok (mtrain, mtest)
    ∧ mtrain = [true; true; false; true]
    ∧ mtest = [false; false; true; false].
Proof.
  destruct (split_masks_disjoint_cover toy_labels [1; 2; 3]
              ([0; 2]%nat, [1%nat]) [1; 3] [2])
    as (mtrain & mtest & Hmasks & _); [reflexivity | reflexivity | |].
  - intros s Htrain Htest. apply list_elem_of_singleton in Htest as ->.
    apply elem_of_cons in Htrain as [Heq|Htrain]; [discriminate Heq|].
    apply list_elem_of_singleton in Htrain. discriminate Htrain.
  - exists mtrain, mtest. split; [exact Hmasks|].
    vm_compute in Hmasks. injection Hmasks as <- <-. done.
Defined.

Lemma do_split_unseen_label_fallback_witness :
  ∃ Y_train Y_test,
    do_split Z nat nat toy_os_error
      toy_pickle_dumps toy_pickle_partial ([0; 1]%nat, [2%nat]) toy_images
      toy_matrix toy_labels_unseen None (toy_estimator 1 900) [1; 2; 3] 5
      "models/LDA" 0 toy_world
    = fit_checkpoint_score Z nat nat toy_os_error
        toy_pickle_dumps toy_pickle_partial
        [true; true; true; false] [false; false; false; true]
        Y_train Y_test toy_images toy_matrix None (toy_estimator 1 900)
        ("models/LDA" +:+ "_" +:+ pretty 0 +:+ ".pkl")
        (after_fallback Z nat nat toy_world).
Proof.
  destruct (do_split_unseen_label_fallback Z nat nat toy_os_error
              toy_pickle_dumps toy_pickle_partial
              ([0; 1]%nat, [2%nat]) toy_images toy_matrix toy_labels_unseen
              None (toy_estimator 1 900) [1; 2; 3] 5 "models/LDA" 0
              [true; true; true; false] [false; false; false; true] "D"
              toy_world)
    as (Y_train & D & y & Y_test & _ & _ & _ & _ & _ & _ & Hrun & _).
  - reflexivity.
  - vm_compute. apply list_elem_of_here.
  - apply (proj1 (bool_decide_eq_false _)). vm_compute. reflexivity.
  - exists Y_train, Y_test. exact Hrun.
Defined.

Lemma subject_splits_reproducible_witness :
  (ShuffleSplit_split_for Z nat nat nat toy_RandomState toy_permutation
     toy_global_permutation nat toy_validate
     {| n_splits := 5; train_size := 2%nat; random_state := Some 0 |}
     (length (Pandas.unique (subject <$> toy_labels)))
     toy_collect toy_world).1
  = (ShuffleSplit_split_for Z nat nat nat toy_RandomState toy_permutation
       toy_global_permutation nat toy_validate
       {| n_splits := 5; train_size := 2%nat; random_state := Some 0 |}
       (length (Pandas.unique (subject <$> toy_labels_unseen)))
       toy_collect toy_later).1.
Proof.
  destruct (subject_splits_reproducible Z nat nat toy_os_error
              toy_pickle_dumps toy_pickle_partial nat toy_RandomState
              toy_permutation toy_global_permutation nat toy_validate
              toy_labels toy_labels_unseen 2%nat 5) as (Heq & _);
    [reflexivity|].
  exact (Heq toy_world toy_later).
Defined.


(** *** More of the instance *)

(** An estimator whose [fit] always fails. *)
Definition toy_failing_estimator (id : nat) : estimator Z nat :=
  {| est_id := id;
     est_fit := λ args e, (Raise (ValueError "could not convert string to float"), e);
     est_predict := λ args e, (Raise (OtherError "NotFittedError"), e);
     est_score := λ args e, (Raise (OtherError "NotFittedError"), e) |}.


Definition toy_dict : gmap string Z := {[ "A" := 0; "B" := 1; "C" := 2 ]}.

Definition toy_fetch_nv (data_dir : string) (max_images : option Z)
    (verbose : Z) (e : nat) : result (list string) * nat :=
  (Ok toy_images, e).

Definition toy_project_to_difumo (images : list string)
    (Z_inv mask : matrix Z) (n_jobs : Z) (e : nat)
  : result (matrix Z) * nat :=
  (Ok ((λ _ : string, [1; 2]) <$> images), S e).

(** A world with the two projector arrays in place. *)
Definition toy_projectors : World Z nat nat :=
  {| stdout := []; warnings := []; dirs := toy_dirs;
     fs := {[ "../hcp900_difumo_matrices/Zinv.npy" := NpyFile Z nat [[1; 0]];
              "../hcp900_difumo_matrices/mask.npy" := NpyFile Z nat [[1; 1]] ]};
     writes := []; next_id := 100; ext := 0%nat |}.

(** A run whose second model cannot be fitted. *)
Definition toy_failing_run : result () * World Z nat nat :=
  do_classif Z nat nat toy_os_error toy_pickle_dumps toy_pickle_partial nat
    toy_RandomState toy_permutation toy_global_permutation
    nat toy_validate (toy_estimator 1 900) (toy_failing_estimator 2)
    toy_images [] [] toy_labels None "none" "scores.csv" "models" 2%nat
    5 5 toy_world.

Ltac toy_elems H :=
  repeat (apply elem_of_cons in H as [->|H]); [..|by apply elem_of_nil in H].

Example toy_failing_run_writes :
  toy_failing_run.1 = Raise (ValueError "could not convert string to float")
  ∧ (writes Z nat nat toy_failing_run.2).*1
    = ["models/LDA_0.pkl"; "models/LDA_1.pkl"; "models/LDA_2.pkl";
       "models/LDA_3.pkl"; "models/LDA_4.pkl"]
  ∧ fs Z nat nat toy_failing_run.2 !! "scores.csv" = None.
Proof. vm_compute. done. Qed.

Lemma preprocess_label_supplied_dict_witness :
  ∃ codes : list Z,
    preprocess_label Z nat nat toy_labels (Some toy_dict) false toy_empty
    = (Ok codes, after_reuse Z nat nat toy_empty)
    ∧ length codes = 4%nat.
Proof.
  destruct (preprocess_label_supplied_dict Z nat nat toy_labels toy_dict
              toy_empty) as (codes & _ & Hrun & Hlen & _).
  - intros x Hx. simpl in Hx. toy_elems Hx; by eexists.
  - exists codes. split; [exact Hrun | exact Hlen].
Defined.

Lemma preprocess_label_first_missing_key_witness :
  preprocess_label Z nat nat
    ([ {| contrast := "A"; subject := 1 |};
       {| contrast := "B"; subject := 1 |} ]
     ++ {| contrast := "D"; subject := 3 |}
     :: [ {| contrast := "A"; subject := 2 |} ])
    (Some toy_dict) true toy_empty
  = (Raise (KeyError "D"), after_reuse Z nat nat toy_empty).
Proof.
  apply (preprocess_label_first_missing_key Z nat nat
           [ {| contrast := "A"; subject := 1 |};
             {| contrast := "B"; subject := 1 |} ]
           [ {| contrast := "A"; subject := 2 |} ]
           {| contrast := "D"; subject := 3 |} toy_dict true toy_empty).
  - intros x Hx. simpl in Hx. toy_elems Hx; by eexists.
  - reflexivity.
Defined.

Lemma built_dict_reused_consistently_witness :
  ∃ (codes : list Z) (D : gmap string Z) (codes' : list Z),
    preprocess_label Z nat nat toy_labels None true toy_empty
    = (Ok (codes, D), after_build Z nat nat toy_empty)
    ∧ preprocess_label Z nat nat
        [ {| contrast := "C"; subject := 9 |};
          {| contrast := "A"; subject := 9 |} ] (Some D) false toy_empty
      = (Ok codes', after_reuse Z nat nat toy_empty).
Proof.
  destruct (built_dict_reused_consistently Z nat nat toy_labels
              [ {| contrast := "C"; subject := 9 |};
                {| contrast := "A"; subject := 9 |} ] toy_empty toy_empty)
    as (codes & D & codes' & H1 & H2 & _).
  - intros x Hx. simpl in Hx. simpl.
    toy_elems Hx; [do 3 right; left | left].
  - exists codes, D, codes'. split; [exact H1 | exact H2].
Defined.

Lemma do_split_seen_labels_share_codes_witness :
  ∃ Y_train Y_test : list Z,
    do_split Z nat nat toy_os_error
      toy_pickle_dumps toy_pickle_partial ([0; 2]%nat, [1%nat]) toy_images
      toy_matrix toy_labels None (toy_estimator 1 900) [1; 2; 3] 5
      "models/LDA" 0 toy_world
    = fit_checkpoint_score Z nat nat toy_os_error
        toy_pickle_dumps toy_pickle_partial
        [true; true; false; true] [false; false; true; false]
        Y_train Y_test toy_images toy_matrix None (toy_estimator 1 900)
        ("models/LDA" +:+ "_" +:+ pretty 0 +:+ ".pkl")
        (after_reuse Z nat nat (after_train_labels Z nat nat toy_world))
    ∧ warnings Z nat nat
        (after_reuse Z nat nat (after_train_labels Z nat nat toy_world))
      = [].
Proof.
  destruct (do_split_seen_labels_share_codes Z nat nat toy_os_error
              toy_pickle_dumps toy_pickle_partial
              ([0; 2]%nat, [1%nat]) toy_images toy_matrix toy_labels None
              (toy_estimator 1 900) [1; 2; 3] 5 "models/LDA" 0
              [true; true; false; true] [false; false; true; false]
              toy_world) as (Y_train & Y_test & Hrun & Hwarn & _).
  - reflexivity.
  - intros x Hx. simpl in Hx. simpl. toy_elems Hx. left.
  - exists Y_train, Y_test. split; [exact Hrun | exact Hwarn].
Defined.

Lemma do_split_fallback_renumbers_test_witness :
  ∃ Y_train Y_test : list Z,
    do_split Z nat nat toy_os_error
      toy_pickle_dumps toy_pickle_partial ([0; 1]%nat, [2%nat]) toy_images
      toy_matrix toy_labels_unseen None (toy_estimator 1 900) [1; 2; 3] 5
      "models/LDA" 0 toy_world
    = fit_checkpoint_score Z nat nat toy_os_error
        toy_pickle_dumps toy_pickle_partial
        [true; true; true; false] [false; false; false; true]
        Y_train Y_test toy_images toy_matrix None (toy_estimator 1 900)
        ("models/LDA" +:+ "_" +:+ pretty 0 +:+ ".pkl")
        (after_fallback Z nat nat toy_world)
    ∧ Y_test !! 0%nat = Some 0.
Proof.
  destruct (do_split_fallback_renumbers_test Z nat nat toy_os_error
              toy_pickle_dumps toy_pickle_partial
              ([0; 1]%nat, [2%nat]) toy_images toy_matrix toy_labels_unseen
              None (toy_estimator 1 900) [1; 2; 3] 5 "models/LDA" 0
              [true; true; true; false] [false; false; false; true] "D"
              toy_world) as (Y_train & Y_test & Hrun & Hhead & _).
  - reflexivity.
  - vm_compute. apply list_elem_of_here.
  - apply (proj1 (bool_decide_eq_false _)). vm_compute. reflexivity.
  - exists Y_train, Y_test. split; [exact Hrun | exact Hhead].
Defined.



Lemma unique_subjects_split_never_leaks_witness :
  ∃ mtrain mtest,
    split_masks ([0; 2]%nat, [1%nat]) toy_labels
      (Pandas.unique (subject <$> toy_labels)) = Ok (mtrain, mtest)
    ∧ mtrain = [true; true; false; true]
    ∧ mtest = [false; false; true; false].
Proof.
  destruct (unique_subjects_split_never_leaks toy_labels
              ([0; 2]%nat, [1%nat]))
    as (mtrain & mtest & Hmasks & _).
  - repeat constructor.
  - repeat constructor.
  - intros i Htrain Htest. simpl in Htrain, Htest.
    apply list_elem_of_singleton in Htest as ->.
    apply elem_of_cons in Htrain as [Heq|Htrain]; [discriminate Heq|].
    apply list_elem_of_singleton in Htrain. discriminate Htrain.
  - exists mtrain, mtest. split; [exact Hmasks|].
    vm_compute in Hmasks. injection Hmasks as <- <-. done.
Defined.

Lemma toy_permutation_NoDup (r n : nat) : NoDup (toy_permutation r n).1.
Proof.
  unfold toy_permutation. simpl.
  destruct (Nat.even r); [|rewrite reverse_Permutation]; apply NoDup_seq.
Qed.

Lemma toy_permutation_range (r : nat) :
  Forall (λ i, (i < 3)%nat) (toy_permutation r 3).1.
Proof.
  unfold toy_permutation. simpl.
  destruct (Nat.even r); vm_compute; repeat constructor.
Qed.

Lemma generated_splits_never_leak_witness :
  ∃ mtrain mtest,
    split_masks ([1; 2]%nat, [0%nat]) toy_labels
      (Pandas.unique (subject <$> toy_labels)) = Ok (mtrain, mtest)
    ∧ mtrain = [false; false; true; true]
    ∧ mtest = [true; true; false; false].
Proof.
  destruct (generated_splits_never_leak nat toy_RandomState toy_permutation
              nat toy_validate toy_labels 2%nat 5
              (iter_indices nat toy_permutation (toy_RandomState 0) 5 3 2 1)
              ([1; 2]%nat, [0%nat]))
    as (mtrain & mtest & Hmasks & _).
  - intros r. apply toy_permutation_NoDup.
  - intros r. apply toy_permutation_range.
  - reflexivity.
  - vm_compute. apply list_elem_of_here.
  - exists mtrain, mtest. split; [exact Hmasks|].
    vm_compute in Hmasks. injection Hmasks as <- <-. done.
Defined.

Lemma failed_run_writes_no_table_witness :
  ∃ pk,
    writes Z nat nat toy_failing_run.2 = writes Z nat nat toy_world ++ pk
    ∧ Forall (λ pf, ∃ p, pf.2 = PklFile Z nat p) pk.
Proof.
  apply (failed_run_writes_no_table Z nat nat toy_os_error
           toy_pickle_dumps toy_pickle_partial nat
           toy_RandomState toy_permutation toy_global_permutation nat
           toy_validate
           (toy_estimator 1 900) (toy_failing_estimator 2) toy_images [] []
           toy_labels None "none" "scores.csv" "models" 2%nat 5 5
           (ValueError "could not convert string to float") toy_world
           toy_failing_run.2).
  vm_compute. reflexivity.
Defined.



Lemma pre_project_main_saves_projection_witness :
  ∃ X,
    np_load Z nat nat (output_path default_arguments)
      (pre_project_main Z nat nat toy_os_error
         toy_fetch_nv toy_project_to_difumo
         default_arguments toy_projectors).2
    = (Ok X,
       (pre_project_main Z nat nat toy_os_error
          toy_fetch_nv toy_project_to_difumo
          default_arguments toy_projectors).2).
Proof.
  destruct (pre_project_main_saves_projection Z nat nat toy_os_error
              toy_fetch_nv
              toy_project_to_difumo default_arguments toy_projectors
              (pre_project_main Z nat nat toy_os_error
                 toy_fetch_nv toy_project_to_difumo
                 default_arguments toy_projectors).2)
    as (images & Z_inv & mask & X & e1 & _ & _ & _ & _ & _ & _ & Hload & _).
  - vm_compute. reflexivity.
  - exists X. exact Hload.
Defined.


